(** * fin_report_extractor: report ingestion and normalization pipeline

    A shallow embedding of the processor
    ([infra/llm_based_processor.py]), the repository
    ([infra/sqlalchemy_repository.py]) and the HTTP handlers
    ([app/api/reports.py]), with the properties of the pipeline proved
    over it.

    Python dictionaries are finite maps ([gmap]): dictionary equality in
    Python ignores insertion order, and so does [gmap] equality.  Where
    the code walks a dictionary ([.items()], [.keys()]) the model walks
    [map_to_list]; nothing below depends on the order of that walk. *)

From Stdlib Require Import NArith Ascii String.
From stdpp Require Import base option numbers list gmap sets strings.

Local Open Scope string_scope.

(** ** Python's [uuid.UUID]

    A UUID is its 128-bit integer.  [str(u)] is ['%032x' % u.int] cut
    into the groups 8-4-4-4-12; [UUID(s)] drops the hyphens, wants 32
    characters and reads them as a hexadecimal number.  (The constructor
    also accepts braces and a [urn:uuid:] prefix; the program only ever
    feeds it strings that [str] produced.) *)

Definition UUID : Type := dsig (λ n : N, (n < 2 ^ 128)%N).

Definition uuid_int (u : UUID) : N := `u.

Definition hex_char (d : N) : ascii :=
  match d with
  | 0 => "0" | 1 => "1" | 2 => "2" | 3 => "3" | 4 => "4" | 5 => "5"
  | 6 => "6" | 7 => "7" | 8 => "8" | 9 => "9" | 10 => "a" | 11 => "b"
  | 12 => "c" | 13 => "d" | 14 => "e" | _ => "f"
  end%N%char.

(** ['%0<width>x' % n] for [n < 16 ^ width] *)
Fixpoint hex_digits (width : nat) (n : N) : list ascii :=
  match width with
  | O => []
  | S w => hex_digits w (n / 16) ++ [hex_char (n mod 16)]
  end.

(** [UUID.__str__] *)
Definition uuid_str (u : UUID) : string :=
  let hex := hex_digits 32 (uuid_int u) in
  string_of_list_ascii
    (take 8 hex ++ "-"%char :: take 4 (drop 8 hex) ++ "-"%char ::
     take 4 (drop 12 hex) ++ "-"%char :: take 4 (drop 16 hex) ++ "-"%char ::
     drop 20 hex).

Definition hex_value (c : ascii) : option N :=
  let n := N_of_ascii c in
  if decide (48 ≤ n ≤ 57)%N then Some (n - 48)%N
  else if decide (97 ≤ n ≤ 102)%N then Some (n - 87)%N
  else if decide (65 ≤ n ≤ 70)%N then Some (n - 55)%N
  else None.

Definition hex_step (acc : option N) (c : ascii) : option N :=
  match acc, hex_value c with
  | Some a, Some d => Some (16 * a + d)%N
  | _, _ => None
  end.

(** [int(hex, 16)] on a string of hexadecimal digits *)
Definition int_of_hex (cs : list ascii) : option N :=
  foldl hex_step (Some 0%N) cs.

(** [UUID(s)]; [None] stands for the [ValueError] of a malformed string. *)
Definition UUID_parse (s : string) : option UUID :=
  let hex := filter (λ c, c ≠ "-"%char) (list_ascii_of_string s) in
  if decide (length hex = 32%nat) then
    match int_of_hex hex with
    | Some n =>
        match decide (n < 2 ^ 128)%N with
        | left H => Some (dexist n H)
        | right _ => None
        end
    | None => None
    end
  else None.

(** ** core/fin_report_processors/models.py *)

(** [MetricValues]: both fields default to [None]; [None] is kept apart
    from the empty string. *)
Record MetricValues := mkMetricValues {
  current : option string;
  previous : option string;
}.

(** [MetricValues()] *)
Definition MetricValues_default : MetricValues := mkMetricValues None None.

(** [MetadataKeyConfig = Union[Mapping[str, str], Sequence[str], str, None]] *)
Inductive MetadataKeyConfig :=
  | MetadataKeysMapping (m : gmap string string)
  | MetadataKeysSequence (l : list string)
  | MetadataKeysStr (s : string)
  | MetadataKeysNone.

Record MetricConfig := mkMetricConfig {
  aliases : list string;
  metadata_keys : MetadataKeyConfig;
}.

(** [datetime]: the date and time fields, as one number, and the UTC
    offset of an aware value; [tzinfo] is [None] for a naive value.  A
    naive value and an aware one are never equal.  (Python takes two
    aware values that name the same instant for equal, also with
    different offsets; equality here is finer, so values equal here
    are equal in Python, and the values told apart below are a naive
    and an aware one.) *)
Record datetime := mkDatetime {
  wall_clock : Z;
  tzinfo : option Z;
}.

(** A naive [datetime]; a number where a [datetime] is expected stands
    for the naive value with these date and time fields. *)
Definition naive (wall_clock : Z) : datetime := mkDatetime wall_clock None.

Coercion naive : Z >-> datetime.

(** An aware [datetime] of the time zone [timezone.utc] *)
Definition utc (wall_clock : Z) : datetime := mkDatetime wall_clock (Some 0%Z).

(** [ProcessedData]: [data] defaults to [{}], [error] to [None];
    [processed_at] defaults to the clock reading at construction. *)
Record ProcessedData := mkProcessedData {
  report_id : UUID;
  data : gmap string MetricValues;
  processed_at : datetime;
  error : option string;
}.

(** [processed.model_copy(update={"report_id": generated_id})] *)
Definition model_copy_report_id (processed : ProcessedData)
    (generated_id : UUID) : ProcessedData :=
  mkProcessedData generated_id (data processed) (processed_at processed)
    (error processed).

(** [DefaultMetricsModel().model_dump(mode="python")] *)
Definition DEFAULT_METRICS_MODEL : gmap string MetricConfig :=
  <["non_current_assets" := mkMetricConfig
      ["non current assets"; "non-current assets"]
      (MetadataKeysSequence
         ["non_current_assets_current"; "non_current_assets_previous"])]>
  (<["current_assets" := mkMetricConfig
      ["current assets"]
      (MetadataKeysSequence
         ["current_assets_current"; "current_assets_previous"])]>
  (<["prepaid_expenses" := mkMetricConfig
      ["prepaid expenses"; "prepaid expense"]
      (MetadataKeysSequence
         ["prepaid_expenses_current"; "prepaid_expenses_previous"])]>
  (<["deferred_tax_assets" := mkMetricConfig
      ["deferred tax assets"; "deferred tax asset"]
      (MetadataKeysSequence
         ["deferred_tax_assets_current"; "deferred_tax_assets_previous"])]>
   ∅))).

(** ** core/fin_report_processors/db_models.py

    The two tables as the ORM presents them: a [ReportRecord] carries
    its metric rows in the [metrics] relationship.  The table
    [processed_reports] is a finite map from its primary key, the [id]
    column, to the other columns of the row, so [record.id] is the key
    under which [record] was found.  The surrogate key of a metric row
    and its foreign key are filled in by the ORM and never read by the
    program.

    The store is SQLite, the default of [app/main.py] and the store of
    the tests.  Its [DateTime(timezone=True)] column keeps the date and
    time fields of the value written and no time zone, so the column
    [processed_at] holds a number: [save] writes the fields of the
    [datetime] it is given, [get] reads a naive [datetime]. *)
Record ReportMetricRecord := mkReportMetricRecord {
  row_name : string;
  current_value : option string;
  previous_value : option string;
}.

Record ReportRecord := mkReportRecord {
  rec_processed_at : Z;
  rec_error : option string;
  rec_metrics : list ReportMetricRecord;
}.

(** ** core/fin_report_file_loaders/models.py

    The documents here are those whose metadata values are strings, as
    the loader behind [XlsxFileReader] gives them: the values only
    reach the prompt, except ["source"], under which the loader stores
    the path of the uploaded file.  ([metadata] is a [Dict[str, Any]];
    a document made by other means, with a ["source"] that is not a
    string, is not modelled.) *)
Record ReportFileData := mkReportFileData {
  content : string;
  metadata : gmap string string;
}.

(** ** Exceptions, effects

    A Python exception is its class, as far as the [except] clauses and
    [isinstance] tests of the program tell classes apart, and the text
    [str] gives for it. *)
Inductive ExcClass :=
  | BaseExceptionOnly   (* outside [Exception]: CancelledError, KeyboardInterrupt *)
  | ExceptionClass      (* [Exception] and its subclasses not listed here *)
  | OSErrorClass
  | ValueErrorClass
  | AttributeErrorClass.

Definition is_Exception (c : ExcClass) : bool :=
  match c with BaseExceptionOnly => false | _ => true end.

Definition is_OSError (c : ExcClass) : bool :=
  match c with OSErrorClass => true | _ => false end.

Record PyExc := mkPyExc {
  exc_class : ExcClass;
  exc_str : string;
}.

(** What a request handler can end with besides its response. *)
Inductive HandlerError :=
  | HTTPException (status_code : nat) (detail : string)
  | Unhandled (exc : PyExc).

Inductive Result (E A : Type) :=
  | Ok (a : A)
  | Raise (e : E).
Arguments Ok {E A} a.
Arguments Raise {E A} e.

Inductive LogLevel := ERROR | EXCEPTION.

(** The world the program runs in: the database behind the session
    factory, the clock behind [datetime.now], the generator behind
    [uuid7], the temporary directory and the log.  The clock and the
    generator are arbitrary sequences of readings, the clock's in UTC;
    [w_locked] holds the paths whose removal fails with [OSError]. *)
Record World := mkWorld {
  w_db : gmap string ReportRecord;
  w_clock : nat → Z;
  w_clock_reads : nat;
  w_uuids : nat → UUID;
  w_uuid_draws : nat;
  w_tmp_names : nat → string;
  w_tmp_made : nat;
  w_files : gset string;
  w_locked : gset string;
  w_log : list (LogLevel * string * list string);
}.

Definition set_db (f : gmap string ReportRecord → gmap string ReportRecord)
    (w : World) : World :=
  mkWorld (f (w_db w)) (w_clock w) (w_clock_reads w) (w_uuids w)
    (w_uuid_draws w) (w_tmp_names w) (w_tmp_made w) (w_files w)
    (w_locked w) (w_log w).

Definition set_files (f : gset string → gset string) (w : World) : World :=
  mkWorld (w_db w) (w_clock w) (w_clock_reads w) (w_uuids w)
    (w_uuid_draws w) (w_tmp_names w) (w_tmp_made w) (f (w_files w))
    (w_locked w) (w_log w).

(** Computations that read and change the world and may raise. *)
Definition M (E A : Type) : Type := World → Result E A * World.

Definition ret {E A} (a : A) : M E A := λ w, (Ok a, w).

Definition raise {E A} (e : E) : M E A := λ w, (Raise e, w).

Definition bind {E A B} (m : M E A) (k : A → M E B) : M E B :=
  λ w, match m w with
       | (Ok a, w') => k a w'
       | (Raise e, w') => (Raise e, w')
       end.

Notation "'let*' x ':=' m 'in' k" := (bind m (λ x, k))
  (at level 10, x pattern, m at level 200, k at level 200).

(** A call whose result is already known *)
Definition lift {E A} (r : Result E A) : M E A := λ w, (r, w).

(** Running a computation whose exceptions the caller does not handle
    inside a request handler *)
Definition unhandled {A} (m : M PyExc A) : M HandlerError A :=
  λ w, match m w with
       | (Ok a, w') => (Ok a, w')
       | (Raise e, w') => (Raise (Unhandled e), w')
       end.

(** [datetime.now(timezone.utc)] *)
Definition datetime_now {E} : M E datetime :=
  λ w, (Ok (utc (w_clock w (w_clock_reads w))),
        mkWorld (w_db w) (w_clock w) (S (w_clock_reads w)) (w_uuids w)
          (w_uuid_draws w) (w_tmp_names w) (w_tmp_made w) (w_files w)
          (w_locked w) (w_log w)).

(** [uuid7()] *)
Definition uuid7 {E} : M E UUID :=
  λ w, (Ok (w_uuids w (w_uuid_draws w)),
        mkWorld (w_db w) (w_clock w) (w_clock_reads w) (w_uuids w)
          (S (w_uuid_draws w)) (w_tmp_names w) (w_tmp_made w) (w_files w)
          (w_locked w) (w_log w)).

(** [logger.error] and [logger.exception]: the format string and its
    arguments, printed *)
Definition log_ {E} (level : LogLevel) (fmt : string) (args : list string) : M E unit :=
  λ w, (Ok tt,
        mkWorld (w_db w) (w_clock w) (w_clock_reads w) (w_uuids w)
          (w_uuid_draws w) (w_tmp_names w) (w_tmp_made w) (w_files w)
          (w_locked w) (w_log w ++ [(level, fmt, args)])).

(** Truth value of an [Optional[str]]: [None] and [""] are false. *)
Definition truthy (s : option string) : bool :=
  match s with
  | None => false
  | Some s => negb (String.eqb s "")
  end.

(** ** infra/llm_based_processor.py: the structured LLM answer *)

Record ExtractedMetric := mkExtractedMetric {
  name : string;
  em_current : option string;
  em_previous : option string;
}.

Record ExtractionResult := mkExtractionResult {
  er_report_id : option string;
  er_metrics : list ExtractedMetric;
}.

(** The loop body of [_build_metrics_from_extraction]:
    [if name not in processed: continue] and otherwise
    [processed[name] = MetricValues(current=..., previous=...)]. *)
Definition build_step (processed : gmap string MetricValues)
    (metric : ExtractedMetric) : gmap string MetricValues :=
  if decide (name metric ∈ dom processed)
  then <[name metric := mkMetricValues (em_current metric) (em_previous metric)]> processed
  else processed.

(** The proposal that [_build_metrics_from_extraction] is specified to
    keep for a metric name: the last one of that name, if any. *)
Definition last_proposal (metric_name : string)
    (proposals : list ExtractedMetric) : option ExtractedMetric :=
  last (filter (λ metric, name metric = metric_name) proposals).

(** [ReportDataProcessor._build_metrics_from_extraction], with
    [self.metrics_config] as first argument. *)
Definition _build_metrics_from_extraction
    (metrics_config : gmap string MetricConfig)
    (extraction : ExtractionResult) : gmap string MetricValues :=
  let processed := gset_to_gmap MetricValues_default (dom metrics_config) in
  foldl build_step processed (er_metrics extraction).

(** ** infra/sqlalchemy_repository.py

    One [save] is one transaction: the record is loaded with its metric
    rows or created, changed in memory, and written back on commit.
    The database itself is assumed to be reachable. *)

(** The row appended for one [(name, values)] item of [data] *)
Definition metric_row (item : string * MetricValues) : ReportMetricRecord :=
  mkReportMetricRecord item.1 (current item.2) (previous item.2).

(** The body of the transaction of [save]: the record it leaves under
    [str(processed_report.report_id)] *)
Definition save_record (processed_report : ProcessedData)
    (db : gmap string ReportRecord) : ReportRecord :=
  let record :=
    match db !! uuid_str (report_id processed_report) with
    | None =>
        mkReportRecord (wall_clock (processed_at processed_report)) None []
    | Some record =>
        mkReportRecord (wall_clock (processed_at processed_report))
          (rec_error record) (rec_metrics record)
    end in
  (* record.error = processed_report.error; record.metrics.clear() *)
  let record :=
    mkReportRecord (rec_processed_at record) (error processed_report) [] in
  match error processed_report with
  | None =>
      foldl (λ record item,
               mkReportRecord (rec_processed_at record) (rec_error record)
                 (rec_metrics record ++ [metric_row item]))
        record (map_to_list (data processed_report))
  | Some _ => record
  end.

(** [SqlAlchemyProcessedReportRepository.save] as a change of the
    database *)
Definition save_db (processed_report : ProcessedData)
    (db : gmap string ReportRecord) : gmap string ReportRecord :=
  <[uuid_str (report_id processed_report) := save_record processed_report db]> db.

Definition save {E} (processed_report : ProcessedData) : M E unit :=
  λ w, (Ok tt, set_db (save_db processed_report) w).

(** The dictionary comprehension of [get]: a later row with the same
    name replaces an earlier one. *)
Definition metrics_of_rows (rows : list ReportMetricRecord)
    : gmap string MetricValues :=
  foldl (λ metrics metric,
           <[row_name metric :=
               mkMetricValues (current_value metric) (previous_value metric)]>
             metrics)
    ∅ rows.

(** [SqlAlchemyProcessedReportRepository.get] as a query on the
    database; [UUID(record.id)] raises [ValueError] on a malformed id. *)
Definition get_db (report_id : UUID) (db : gmap string ReportRecord)
    : Result PyExc (option ProcessedData) :=
  let id := uuid_str report_id in
  match db !! id with
  | None => Ok None
  | Some record =>
      let metrics := metrics_of_rows (rec_metrics record) in
      match UUID_parse id with
      | Some report_id =>
          Ok (Some (mkProcessedData report_id metrics
                      (naive (rec_processed_at record)) (rec_error record)))
      | None =>
          Raise (mkPyExc ValueErrorClass "badly formed hexadecimal UUID string")
      end
  end.

Definition get (report_id : UUID) : M PyExc (option ProcessedData) :=
  λ w, (get_db report_id (w_db w), w).

(** The invariant of the stored records: no error, or no metric rows. *)
Definition record_exclusive (record : ReportRecord) : Prop :=
  rec_error record = None ∨ rec_metrics record = [].

(** ** infra/llm_based_processor.py: the processor *)

Definition DEFAULT_PROMPT_TEMPLATE : string :=
"You are an assistant that extracts structured financial metrics.

Report metadata (JSON):
{metadata_json}

Report content:
{content}

Extract the metrics listed below. Use the metric names exactly as provided.
Respond using the structured schema supplied to you.
Metrics to extract (JSON):
{metrics_json}
".

(** What [await self._structured_llm.ainvoke(prompt)] does: it returns
    an [ExtractionResult] or raises. *)
Inductive LLMOutcome :=
  | Answers (extraction : ExtractionResult)
  | Fails (exc : PyExc).

Record ReportDataProcessor := mkReportDataProcessor {
  metrics_config : gmap string MetricConfig;
  _structured_llm : string → LLMOutcome;
  _prompt_template : string;
}.

(** [ReportDataProcessor.__init__]; the base class copies the
    configuration entry by entry, [prompt_template or
    DEFAULT_PROMPT_TEMPLATE] replaces [None] and the empty string. *)
Definition ReportDataProcessor_init (llm : string → LLMOutcome)
    (metrics_config : gmap string MetricConfig)
    (prompt_template : option string) : ReportDataProcessor :=
  mkReportDataProcessor
    (list_to_map (map_to_list metrics_config))
    llm
    (if truthy prompt_template then default "" prompt_template
     else DEFAULT_PROMPT_TEMPLATE).

Section Pipeline.

(** [template.format(metadata_json=json.dumps(metadata, ...),
    content=content, metrics_json=json.dumps(metrics_config, ...))]:
    the text of the prompt, or the exception that [json.dumps] or
    [str.format] raises. *)
Variable format_prompt :
  string → gmap string string → string → gmap string MetricConfig →
  Result PyExc string.

(** The JSON form of a [datetime] *)
Variable isoformat : datetime → string.

(** [ReportDataProcessor.process]: [inl] is a [ProcessedData], [inr] an
    exception returned as a value. *)
Definition process (self : ReportDataProcessor)
    (report_file_data : ReportFileData) : M PyExc (ProcessedData + PyExc) :=
  let* prompt := lift (format_prompt (_prompt_template self)
                         (metadata report_file_data) (content report_file_data)
                         (metrics_config self)) in
  match _structured_llm self prompt with
  | Fails exc =>
      if is_Exception (exc_class exc) then
        let* _ := log_ EXCEPTION "LLM-based data extraction failed: %s"
                    [exc_str exc] in
        ret (inr exc)
      else raise exc
  | Answers extraction =>
      let processed_metrics :=
        _build_metrics_from_extraction (metrics_config self) extraction in
      let* report_id := uuid7 in
      let* now := datetime_now in
      ret (inl (mkProcessedData report_id processed_metrics now None))
  end.

(** ** core/fin_report_processors/services.py *)

Record ReportDataBuilder := mkReportDataBuilder {
  builder_metrics_config : gmap string MetricConfig;
  _processor_factory : gmap string MetricConfig → ReportDataProcessor;
}.

(** [ReportDataBuilder.__init__]: no configuration, or a
    [DefaultMetricsModel] (given by its dump), or a mapping *)
Definition ReportDataBuilder_init
    (metrics_config : option (gmap string MetricConfig))
    (processor_factory : gmap string MetricConfig → ReportDataProcessor)
    : ReportDataBuilder :=
  mkReportDataBuilder
    (match metrics_config with
     | None => DEFAULT_METRICS_MODEL
     | Some metrics_config => metrics_config
     end)
    processor_factory.

Definition build_processor (self : ReportDataBuilder) : ReportDataProcessor :=
  _processor_factory self (builder_metrics_config self).

(** [ReportDataBuilder.process] *)
Definition builder_process (self : ReportDataBuilder)
    (report_file_data : ReportFileData) : M PyExc (ProcessedData + PyExc) :=
  process (build_processor self) report_file_data.

(** ** app/container.py

    The configuration of the container is kept as it may be set after
    the container is made, but it does not reach the processor: in
    [prompt_template=config.llm.prompt_template.optional(None)] and
    [metrics_config=config.processor.metrics.optional(None)] the name
    [optional] is read as one more level of the configuration, and
    calling that option gives its value at that moment, while the class
    body runs and nothing is configured.  Both factories are built with
    the constant [None]. *)

Record ReportFileReader := mkReportFileReader {
  read : string → Result PyExc ReportFileData;
  structured_output : string → Result PyExc (list (gmap string string));
}.

Record AppContainer := mkAppContainer {
  llm : string → LLMOutcome;
  config_llm_prompt_template : option string;
  config_processor_metrics : option (gmap string MetricConfig);
  report_file_reader : ReportFileReader;
}.

Definition report_data_builder (container : AppContainer) : ReportDataBuilder :=
  ReportDataBuilder_init None
    (λ metrics_config,
       ReportDataProcessor_init (llm container) metrics_config None).

(** ** app/api/reports.py *)

Definition MAX_UPLOAD_SIZE_BYTES : nat := 2 * 1024 * 1024.

Definition ALLOWED_CONTENT_TYPES : list string :=
  ["application/vnd.openxmlformats-officedocument.spreadsheetml.sheet";
   "application/octet-stream"].

Record UploadFile := mkUploadFile {
  filename : option string;
  content_type : option string;
  size : option nat;
  file_bytes : list ascii;
  (* the exception [shutil.copyfileobj] runs into, if any *)
  copy_error : option PyExc;
}.

Record UploadReportResponse := mkUploadReportResponse {
  upload_report_id : UUID;
  upload_structured_output : list (gmap string string);
}.

Record ProcessedReportResponse := mkProcessedReportResponse {
  resp_report_id : UUID;
  resp_processed_at : string;
  resp_data : gmap string MetricValues;
}.

(** [str.lower] on the letters A to Z; no other character becomes one
    of the characters of [".xlsx"] *)
Definition lower_ascii (c : ascii) : ascii :=
  let n := N_of_ascii c in
  if decide (65 ≤ n ≤ 90)%N then ascii_of_N (n + 32) else c.

Definition lower (s : string) : string :=
  string_of_list_ascii (lower_ascii <$> list_ascii_of_string s).

Definition endswith (s suffix : string) : bool :=
  bool_decide (list_ascii_of_string suffix `suffix_of` list_ascii_of_string s).

(** [os.remove(path)] *)
Definition os_remove (path : string) : M PyExc unit :=
  λ w, if decide (path ∈ w_files w ∧ path ∉ w_locked w)
       then (Ok tt, set_files (λ files, files ∖ {[path]}) w)
       else (Raise (mkPyExc OSErrorClass path), w).

(** [os.path.exists(path)] *)
Definition os_path_exists {E} (path : string) : M E bool :=
  λ w, (Ok (bool_decide (path ∈ w_files w)), w).

(** [try: body  except <classes> as e: handler e] *)
Definition try_except {E A} (body : M E A) (catches : E → bool)
    (handler : E → M E A) : M E A :=
  λ w, match body w with
       | (Raise e, w') => if catches e then handler e w' else (Raise e, w')
       | r => r
       end.

(** [_persist_upload] *)
Definition _persist_upload (upload : UploadFile) : M HandlerError string :=
  let size :=
    match size upload with
    | Some size => size
    | None => length (file_bytes upload)
    end in
  if decide (MAX_UPLOAD_SIZE_BYTES < size) then
    raise (HTTPException 422 "File exceeded 2MB limit")
  else if decide (size = 0) then
    raise (HTTPException 422 "Uploaded file is empty")
  else
    (* NamedTemporaryFile(delete=False, suffix=".xlsx") *)
    let* temp_file :=
      (λ w, (Ok (w_tmp_names w (w_tmp_made w)),
             mkWorld (w_db w) (w_clock w) (w_clock_reads w) (w_uuids w)
               (w_uuid_draws w) (w_tmp_names w) (S (w_tmp_made w))
               ({[w_tmp_names w (w_tmp_made w)]} ∪ w_files w)
               (w_locked w) (w_log w))) in
    match copy_error upload with
    | Some exc =>
        if is_Exception (exc_class exc) then
          let* _ := unhandled (os_remove temp_file) in
          raise (Unhandled exc)
        else raise (Unhandled exc)
    | None => ret temp_file
    end.

(** The task [upload_report] hands to [BackgroundTasks.add_task]: the
    arguments of [process_in_background] *)
Definition BackgroundTask : Type := ReportFileData * UUID.

(** The end of [process_in_background], for a [temp_file_path] that is
    [None] or a string:
    [if temp_file_path and os.path.exists(temp_file_path)], then
    [os.remove] with its [OSError] logged. *)
Definition remove_temp_file (temp_file_path : option string) : M PyExc unit :=
  let* there :=
    if truthy temp_file_path then os_path_exists (default "" temp_file_path)
    else ret false in
  if there : bool then
    try_except (os_remove (default "" temp_file_path))
      (λ e, is_OSError (exc_class e))
      (λ e, log_ ERROR "Failed to remove temp file %s: %s"
              [default "" temp_file_path; exc_str e])
  else ret tt.

(** [process_in_background], the closure defined in [upload_report]
    over [report_data_builder] and [processed_report_repository] *)
Definition process_in_background (report_data_builder : ReportDataBuilder)
    (data : ReportFileData) (generated_id : UUID) : M PyExc unit :=
  let temp_file_path := metadata data !! "source" in
  let* processed := builder_process report_data_builder data in
  let* processed_with_id :=
    match processed with
    | inr exc =>
        if is_Exception (exc_class exc) then
          let* _ := log_ ERROR "Report %s failed during processing: %s"
                      [uuid_str generated_id; exc_str exc] in
          let* now := datetime_now in
          ret (mkProcessedData generated_id ∅ now (Some (exc_str exc)))
        else
          raise (mkPyExc AttributeErrorClass "model_copy")
    | inl processed => ret (model_copy_report_id processed generated_id)
    end in
  let* _ := save processed_with_id in
  remove_temp_file temp_file_path.

(** [upload_report]: the response, and the task it has scheduled *)
Definition upload_report (container : AppContainer) (file : UploadFile)
    : M HandlerError (UploadReportResponse * BackgroundTask) :=
  if negb (truthy (filename file)) ||
     negb (endswith (lower (default "" (filename file))) ".xlsx")
  then raise (HTTPException 422 "File must have .xlsx extension")
  else if negb (bool_decide (content_type file ∈ Some <$> ALLOWED_CONTENT_TYPES))
  then raise (HTTPException 422 "Unsupported file content type")
  else
    let* temp_path := _persist_upload file in
    let file_reader := report_file_reader container in
    let report_data_builder := report_data_builder container in
    let* (structured_output, report_file_data) :=
      try_except
        (let* structured_output :=
           unhandled (lift (structured_output file_reader temp_path)) in
         let* report_file_data :=
           unhandled (lift (read file_reader temp_path)) in
         ret (structured_output, report_file_data))
        (λ e, match e with
              | Unhandled exc => is_Exception (exc_class exc)
              | HTTPException _ _ => true
              end)
        (λ e,
           let* _ := log_ EXCEPTION "Failed to read uploaded report: %s"
                       [match e with
                        | Unhandled exc => exc_str exc
                        | HTTPException _ detail => detail
                        end] in
           raise (HTTPException 422 "Unable to parse the uploaded Excel file")) in
    let* report_id := uuid7 in
    ret (mkUploadReportResponse report_id structured_output,
         (report_file_data, report_id)).

(** A [POST /reports] request from start to end: the handler answers,
    then the scheduled task runs; what the task raises is not part of
    the response. *)
Definition post_reports (container : AppContainer) (file : UploadFile)
    : M HandlerError UploadReportResponse :=
  λ w, match upload_report container file w with
       | (Ok (response, (data, generated_id)), w') =>
           (Ok response,
            (process_in_background (report_data_builder container)
               data generated_id w').2)
       | (Raise e, w') => (Raise e, w')
       end.

(** [get_processed_report] *)
Definition get_processed_report (report_id' : UUID)
    : M HandlerError ProcessedReportResponse :=
  let* processed := unhandled (get report_id') in
  match processed with
  | None => raise (HTTPException 404 "Report not found")
  | Some processed =>
      if truthy (error processed) then
        let* _ := log_ ERROR
                    "Processed report %s is unavailable due to an internal error: %s"
                    [uuid_str report_id'; default "" (error processed)] in
        raise (HTTPException 500
                 "Report processing failed. Please try again later.")
      else
        (* model_validate(model_dump(mode="json", exclude={"error"})) *)
        ret (mkProcessedReportResponse (report_id processed)
               (isoformat (processed_at processed)) (data processed))
  end.


(** ** Sample values for the examples *)

Definition sample_id : UUID :=
  dexist 0x0190f3c27a5b7cde8f0123456789abcd%N eq_refl.

Definition other_id : UUID :=
  dexist 0x0190f3c27a5b7cde8f0123456789abce%N eq_refl.

Definition sample_schema : gmap string MetricConfig :=
  <["cash" := mkMetricConfig ["cash"; "cash and equivalents"] MetadataKeysNone]>
  (<["debt" := mkMetricConfig ["debt"] (MetadataKeysStr "debt_total")]> ∅).

(** Two proposals for ["cash"], one for a name outside the schema *)
Definition sample_extraction : ExtractionResult :=
  mkExtractionResult (Some "ignored")
    [mkExtractedMetric "cash" (Some "80") (Some "70");
     mkExtractedMetric "unused" (Some "1") None;
     mkExtractedMetric "cash" (Some "100") None].

Definition sample_document : ReportFileData :=
  mkReportFileData "Cash 100 90" {["source" := "/tmp/tmp0.xlsx"]}.

Definition sample_file : UploadFile :=
  mkUploadFile (Some "Report.XLSX") (Some "application/octet-stream")
    (Some 16) [] None.

Definition sample_reader : ReportFileReader :=
  mkReportFileReader
    (λ path, Ok (mkReportFileData "Cash 100 90" {["source" := path]}))
    (λ _, Ok [{["account" := "Cash"]}]).

Definition answering_llm (extraction : ExtractionResult)
    : string → LLMOutcome :=
  λ _, Answers extraction.

(** An extractor that raises an exception with the given text; the
    text is empty for [TimeoutError()]. *)
Definition failing_llm (message : string) : string → LLMOutcome :=
  λ _, Fails (mkPyExc ExceptionClass message).

(** A container with a metrics mapping in its configuration *)
Definition sample_container (llm : string → LLMOutcome) : AppContainer :=
  mkAppContainer llm None (Some sample_schema) sample_reader.

Definition sample_format_prompt (template : string)
    (metadata : gmap string string) (content : string)
    (metrics_config : gmap string MetricConfig) : Result PyExc string :=
  Ok (template ++ content).

Definition sample_isoformat (t : datetime) : string :=
  (if decide (wall_clock t = 1700000000%Z) then "2023-11-14T22:13:20"
   else "2023-11-14T22:13:21") ++
  match tzinfo t with Some _ => "Z" | None => "" end.

Definition sample_clock (reading : nat) : Z :=
  match reading with
  | O => 1700000000%Z
  | S _ => 1700000001%Z
  end.

Definition sample_uuids (draw : nat) : UUID :=
  match draw with
  | O => sample_id
  | S _ => other_id
  end.

Definition sample_world : World :=
  mkWorld ∅ sample_clock 0 sample_uuids 0 (λ _, "/tmp/tmp0.xlsx") 0 ∅ ∅ [].

Definition sample_report : ProcessedData :=
  mkProcessedData sample_id
    {["cash" := mkMetricValues (Some "100") (Some "")]} (utc 1700000000) None.

Definition later_report : ProcessedData :=
  mkProcessedData sample_id
    {["debt" := mkMetricValues None (Some "7")]} (utc 1700000005) None.

(** A [ProcessedData] with an error and metrics at once *)
Definition failed_with_metrics : ProcessedData :=
  mkProcessedData sample_id
    {["debt" := mkMetricValues (Some "7") None]} (utc 1700000009)
    (Some "LLM failure").

(** Another answer: other metrics, another proposed id *)
Definition other_extraction : ExtractionResult :=
  mkExtractionResult (Some "0190f3c2-0000-7000-8000-000000000000")
    [mkExtractedMetric "debt" None (Some "7")].

Definition failing_builder (message : string) : ReportDataBuilder :=
  report_data_builder (sample_container (failing_llm message)).

(** The prompt [sample_format_prompt] renders for [sample_document] *)
Definition sample_prompt : string :=
  DEFAULT_PROMPT_TEMPLATE ++ "Cash 100 90".

Definition sample_response : UploadReportResponse :=
  mkUploadReportResponse sample_id [{["account" := "Cash"]}].

(** [sample_world] after [upload_report] has accepted [sample_file] *)
Definition uploaded_world : World :=
  mkWorld ∅ sample_clock 0 sample_uuids 1 (λ _, "/tmp/tmp0.xlsx") 1
    {["/tmp/tmp0.xlsx"]} ∅ [].

(** A world whose database holds one failed report, its error the
    empty string *)
Definition world_with_empty_error : World :=
  set_db (save_db (mkProcessedData sample_id ∅ (utc 1700000000) (Some "")))
    sample_world.

(** ** infra/xlsx_reader.py *)

(** A document as [UnstructuredExcelLoader] returns it *)
Record Document := mkDocument {
  page_content : string;
  doc_metadata : gmap string string;
}.

(** The separator [chr(10) + chr(10)] of [read] *)
Definition blank_line : string :=
  String (ascii_of_nat 10) (String (ascii_of_nat 10) EmptyString).

(** [XlsxFileReader.read]; [aload] is what [await loader.aload()] does
    for a path: it returns documents or raises.  [metadata.update]
    lets a later document replace the value of a key. *)
Definition XlsxFileReader_read
    (aload : string → Result PyExc (list Document)) (file_path : string)
    : Result PyExc ReportFileData :=
  match aload file_path with
  | Raise e => Raise e
  | Ok [] => Raise (mkPyExc ValueErrorClass "No content found in the Excel file.")
  | Ok docs =>
      Ok (mkReportFileData
            (String.concat blank_line (page_content <$> docs))
            (foldl (λ metadata doc, doc_metadata doc ∪ metadata) ∅ docs))
  end.

(** ** app/api/reports.py: the router *)

(** [api_key_header = APIKeyHeader(name="X-API-Key")], the security
    scheme [enforce_api_key] depends on: FastAPI reads the header and
    refuses a request whose header is missing or empty by itself,
    before the dependency runs.  [not_authenticated] is the status code
    of that refusal, which is FastAPI's choice (403, and 401 in later
    releases). *)
Definition APIKeyHeader (not_authenticated : nat) (header : option string)
    : M HandlerError string :=
  if truthy header then ret (default "" header)
  else raise (HTTPException not_authenticated "Not authenticated").

(** [enforce_api_key], the dependency of every route of the router;
    [api_key] is the configured key ([None] when the environment has
    none), [api_key_header] what the security scheme has read from the
    [X-API-Key] header. *)
Definition enforce_api_key (api_key : option string) (api_key_header : string)
    : M HandlerError unit :=
  if decide (Some api_key_header ≠ api_key)
  then raise (HTTPException 401 "Invalid API key")
  else ret tt.

Inductive Request :=
  | POST_reports (file : UploadFile)
  | GET_report (report_id : UUID).

Inductive Response :=
  | Accepted (body : UploadReportResponse)       (* 202 *)
  | Processed (body : ProcessedReportResponse).  (* 200 *)

(** The routes of [create_reports_router]: the security scheme reads
    the header, the dependency runs, then the handler of the route. *)
Definition reports_router (container : AppContainer) (api_key : option string)
    (not_authenticated : nat) (header : option string) (request : Request)
    : M HandlerError Response :=
  let* api_key_header := APIKeyHeader not_authenticated header in
  let* _ := enforce_api_key api_key api_key_header in
  match request with
  | POST_reports file =>
      let* body := post_reports container file in ret (Accepted body)
  | GET_report report_id =>
      let* body := get_processed_report report_id in ret (Processed body)
  end.

(** ** Notions used in the statements *)

#[global] Instance UUID_eq_dec : EqDecision UUID := _.

(** What [get] gives back of a saved report: the metrics only of a
    report without error, [processed_at] without its time zone *)
Definition as_stored (r : ProcessedData) : ProcessedData :=
  mkProcessedData (report_id r)
    (match error r with None => data r | Some _ => ∅ end)
    (naive (wall_clock (processed_at r))) (error r).

(** The last report of a sequence of saves with a given id *)
Definition last_saved (id : UUID) (saves : list ProcessedData)
    : option ProcessedData :=
  last (filter (λ r, report_id r = id) saves).

(** The database after a sequence of [save] calls *)
Definition saved_db (saves : list ProcessedData) : gmap string ReportRecord :=
  foldl (λ db r, save_db r db) ∅ saves.

(** The size [_persist_upload] compares with the limit *)
Definition upload_size (upload : UploadFile) : nat :=
  match size upload with
  | Some size => size
  | None => length (file_bytes upload)
  end.

(** ** More sample values *)

Definition other_report : ProcessedData :=
  mkProcessedData other_id
    {["cash" := mkMetricValues None None]} (utc 1700000002) None.

(** A report whose [processed_at] is naive *)
Definition naive_report : ProcessedData :=
  mkProcessedData other_id
    {["cash" := mkMetricValues None (Some "")]} 1700000003%Z None.

(** An extractor whose call is cancelled: the exception is outside the
    [Exception] hierarchy. *)
Definition cancelled_llm : string → LLMOutcome :=
  λ _, Fails (mkPyExc BaseExceptionOnly "cancelled").

Definition broken_file : UploadFile :=
  mkUploadFile (Some "report.xlsx") (Some "application/octet-stream")
    (Some 16) [] (Some (mkPyExc OSErrorClass "No space left on device")).

Definition unreadable_reader : ReportFileReader :=
  mkReportFileReader
    (λ path, Ok (mkReportFileData "" ∅))
    (λ _, Raise (mkPyExc ValueErrorClass "File is not a zip file")).

Definition unreadable_container : AppContainer :=
  mkAppContainer (answering_llm sample_extraction) None (Some sample_schema)
    unreadable_reader.

(** [sample_world] after a whole request for [sample_file] whose
    extractor raises ["LLM timeout"] *)
Definition failed_run_world : World :=
  mkWorld
    (save_db (mkProcessedData sample_id ∅ (utc 1700000000)
                (Some "LLM timeout")) ∅)
    sample_clock 1 sample_uuids 1 (λ _, "/tmp/tmp0.xlsx") 1 ∅ ∅
    [(EXCEPTION, "LLM-based data extraction failed: %s", ["LLM timeout"]);
     (ERROR, "Report %s failed during processing: %s",
      ["0190f3c2-7a5b-7cde-8f01-23456789abcd"; "LLM timeout"])].

(** [failed_run_world] after a second such request *)
Definition second_run_world : World :=
  mkWorld
    (save_db (mkProcessedData other_id ∅ (utc 1700000001)
                (Some "LLM timeout"))
       (save_db (mkProcessedData sample_id ∅ (utc 1700000000)
                   (Some "LLM timeout"))
          ∅))
    sample_clock 2 sample_uuids 2 (λ _, "/tmp/tmp0.xlsx") 2 ∅ ∅
    [(EXCEPTION, "LLM-based data extraction failed: %s", ["LLM timeout"]);
     (ERROR, "Report %s failed during processing: %s",
      ["0190f3c2-7a5b-7cde-8f01-23456789abcd"; "LLM timeout"]);
     (EXCEPTION, "LLM-based data extraction failed: %s", ["LLM timeout"]);
     (ERROR, "Report %s failed during processing: %s",
      ["0190f3c2-7a5b-7cde-8f01-23456789abce"; "LLM timeout"])].

(** Unfolding the effects of a computation *)
Ltac run_M :=
  unfold bind, ret, raise, lift, unhandled, save, get, log_, datetime_now,
    uuid7, try_except, os_path_exists; simpl.

(** * Properties *)

(** ** [str] and [UUID] are inverse on UUIDs *)

Lemma hex_value_hex_char (d : N) : (d < 16)%N → hex_value (hex_char d) = Some d.
Proof.
  intros Hd.
  assert (Hcases : d ∈ (N.of_nat <$> seq 0 16)).
  { apply list_elem_of_fmap. exists (N.to_nat d). split; [lia|].
    apply elem_of_seq. lia. }
  cbn in Hcases.
  repeat (apply elem_of_cons in Hcases as [->|Hcases]; [reflexivity|]).
  by apply elem_of_nil in Hcases.
Qed.

Lemma hex_char_not_hyphen (d : N) : hex_char d ≠ "-"%char.
Proof.
  destruct d as [|p]; [done|].
  do 5 (try destruct p as [p|p|]); done.
Qed.

Lemma length_hex_digits (w : nat) (n : N) : length (hex_digits w n) = w.
Proof.
  revert n. induction w as [|w IH]; intros n; simpl; [done|].
  rewrite length_app, IH. simpl. lia.
Qed.

Lemma hex_digits_no_hyphen (w : nat) (n : N) :
  Forall (λ c, c ≠ "-"%char) (hex_digits w n).
Proof.
  revert n. induction w as [|w IH]; intros n; simpl; [constructor|].
  apply Forall_app. split; [apply IH|].
  repeat constructor. apply hex_char_not_hyphen.
Qed.

Lemma int_of_hex_digits (w : nat) (n a : N) :
  foldl hex_step (Some a) (hex_digits w n)
  = Some (a * 16 ^ N.of_nat w + n mod 16 ^ N.of_nat w)%N.
Proof.
  revert n a. induction w as [|w IH]; intros n a; simpl hex_digits.
  - simpl. f_equal. rewrite N.mod_1_r. lia.
  - rewrite foldl_app, IH. simpl. unfold hex_step.
    rewrite hex_value_hex_char by (apply N.mod_lt; lia).
    f_equal. rewrite Nat2N.inj_succ, N.pow_succ_r'.
    rewrite N.Div0.mod_mul_r.
    lia.
Qed.

Lemma filter_no_hyphen (l : list ascii) :
  Forall (λ c, c ≠ "-"%char) l → filter (λ c, c ≠ "-"%char) l = l.
Proof.
  induction 1 as [|c l Hc _ IH]; [done|].
  rewrite filter_cons_True by done. by rewrite IH.
Qed.

Lemma filter_hyphenated (hex : list ascii) :
  Forall (λ c, c ≠ "-"%char) hex →
  filter (λ c, c ≠ "-"%char)
    (take 8 hex ++ "-"%char :: take 4 (drop 8 hex) ++ "-"%char ::
     take 4 (drop 12 hex) ++ "-"%char :: take 4 (drop 16 hex) ++ "-"%char ::
     drop 20 hex)%list = hex.
Proof.
  intros Hhex.
  assert (Hsplit : hex = (take 8 hex ++ take 4 (drop 8 hex) ++
    take 4 (drop 12 hex) ++ take 4 (drop 16 hex) ++ drop 20 hex)%list).
  { rewrite <- (take_drop 8 hex) at 1. f_equal.
    rewrite <- (take_drop 4 (drop 8 hex)) at 1. f_equal.
    rewrite drop_drop. simpl.
    rewrite <- (take_drop 4 (drop 12 hex)) at 1. f_equal.
    rewrite drop_drop. simpl.
    rewrite <- (take_drop 4 (drop 16 hex)) at 1. f_equal.
    by rewrite drop_drop. }
  rewrite Hsplit in Hhex.
  repeat (apply Forall_app in Hhex as [? Hhex]).
  assert (Hhy : ¬ ("-"%char ≠ "-"%char)) by (intros Hc; by apply Hc).
  rewrite list.filter_app.
  repeat (rewrite filter_cons_False by exact Hhy; rewrite list.filter_app).
  rewrite filter_cons_False by exact Hhy.
  rewrite !filter_no_hyphen by assumption. by rewrite <- Hsplit.
Qed.

Lemma UUID_parse_uuid_str (u : UUID) : UUID_parse (uuid_str u) = Some u.
Proof.
  unfold UUID_parse, uuid_str.
  rewrite list_ascii_of_string_of_list_ascii.
  rewrite filter_hyphenated by apply hex_digits_no_hyphen.
  rewrite decide_True by apply length_hex_digits.
  unfold int_of_hex. rewrite int_of_hex_digits.
  destruct u as [n Hn]. simpl.
  assert (Hlt : (n < 2 ^ 128)%N) by (by apply bool_decide_unpack in Hn).
  change (16 ^ N.of_nat 32)%N with (2 ^ 128)%N.
  rewrite N.mul_0_l, N.add_0_l, N.mod_small by done.
  destruct (decide _) as [H|H]; [|done].
  f_equal. by apply dsig_eq.
Qed.

Lemma uuid_str_inj (u1 u2 : UUID) : uuid_str u1 = uuid_str u2 → u1 = u2.
Proof.
  intros Heq. apply (inj Some).
  by rewrite <- !UUID_parse_uuid_str, Heq.
Qed.

(** ** The normalizer *)

Lemma build_step_dom (processed : gmap string MetricValues) metric :
  dom (build_step processed metric) = dom processed.
Proof.
  unfold build_step.
  destruct (decide (name metric ∈ dom processed)) as [Hin|Hin]; [|done].
  rewrite dom_insert_L. by apply subseteq_union_1_L, singleton_subseteq_l.
Qed.

Lemma foldl_build_step_dom proposals (processed : gmap string MetricValues) :
  dom (foldl build_step processed proposals) = dom processed.
Proof.
  revert processed. induction proposals as [|metric proposals IH];
    intros processed; simpl; [done|].
  by rewrite IH, build_step_dom.
Qed.

Lemma last_proposal_cons metric_name metric proposals :
  last_proposal metric_name (metric :: proposals)
  = match last_proposal metric_name proposals with
    | Some kept => Some kept
    | None => if decide (name metric = metric_name) then Some metric else None
    end.
Proof.
  unfold last_proposal. rewrite filter_cons.
  destruct (decide (name metric = metric_name)); [by rewrite last_cons|].
  by destruct (last _).
Qed.

Lemma foldl_build_step_lookup proposals (processed : gmap string MetricValues)
    metric_name :
  metric_name ∈ dom processed →
  foldl build_step processed proposals !! metric_name
  = match last_proposal metric_name proposals with
    | Some kept => Some (mkMetricValues (em_current kept) (em_previous kept))
    | None => processed !! metric_name
    end.
Proof.
  revert processed. induction proposals as [|metric proposals IH];
    intros processed Hin; simpl; [done|].
  rewrite IH by (by rewrite build_step_dom).
  rewrite last_proposal_cons.
  destruct (last_proposal metric_name proposals); [done|].
  unfold build_step.
  destruct (decide (name metric = metric_name)) as [<-|Hne].
  - rewrite decide_True by done. apply lookup_insert_eq.
  - destruct (decide (name metric ∈ dom processed)); [|done].
    by rewrite lookup_insert_ne.
Qed.

Lemma foldl_build_step_skip proposals (processed : gmap string MetricValues) :
  foldl build_step processed proposals
  = foldl build_step processed
      (filter (λ metric, name metric ∈ dom processed) proposals).
Proof.
  revert processed. induction proposals as [|metric proposals IH];
    intros processed; simpl; [done|].
  rewrite filter_cons.
  destruct (decide (name metric ∈ dom processed)) as [Hin|Hin].
  - simpl. rewrite IH. by rewrite build_step_dom.
  - rewrite <- IH. unfold build_step. by rewrite decide_False.
Qed.

Lemma build_metrics_dom (metrics_config : gmap string MetricConfig)
    (extraction : ExtractionResult) :
  dom (_build_metrics_from_extraction metrics_config extraction)
  = dom metrics_config.
Proof.
  unfold _build_metrics_from_extraction.
  by rewrite foldl_build_step_dom, dom_gset_to_gmap.
Qed.

(** C1. For every metrics schema and every list of extracted proposals
    (empty, with duplicate names, with names outside the schema), the
    key set of the mapping [_build_metrics_from_extraction] returns is
    exactly the key set of the schema. *)
Theorem build_metrics_key_set (metrics_config : gmap string MetricConfig)
    (extraction : ExtractionResult) :
  dom (_build_metrics_from_extraction metrics_config extraction)
  = dom metrics_config.
Proof.
  apply set_eq. intros metric_name.
  by rewrite build_metrics_dom.
Qed.

(** What the normalizer holds under a key of the schema: the fields of
    the last proposal of that name, or two absent values. *)
Lemma build_metrics_lookup (metrics_config : gmap string MetricConfig)
    (extraction : ExtractionResult) metric_name :
  metric_name ∈ dom metrics_config →
  _build_metrics_from_extraction metrics_config extraction !! metric_name
  = Some match last_proposal metric_name (er_metrics extraction) with
         | Some kept => mkMetricValues (em_current kept) (em_previous kept)
         | None => MetricValues_default
         end.
Proof.
  intros Hin. unfold _build_metrics_from_extraction.
  rewrite foldl_build_step_lookup by (by rewrite dom_gset_to_gmap).
  destruct (last_proposal _ _); [done|].
  by rewrite lookup_gset_to_gmap_Some.
Qed.

(** C2. For every schema and proposal list: a proposal whose name is a
    key of the schema decides the entry of that name, the last proposal
    of the name giving both fields; a proposal whose name is not a key
    leaves no entry, and the result is the one obtained from the list
    without such proposals.  The function is total, so nothing is
    raised. *)
Theorem build_metrics_last_wins_and_discards
    (metrics_config : gmap string MetricConfig)
    (extraction : ExtractionResult) :
  (∀ metric, metric ∈ er_metrics extraction →
     name metric ∈ dom metrics_config →
     ∃ kept, last_proposal (name metric) (er_metrics extraction) = Some kept ∧
       name kept = name metric ∧
       _build_metrics_from_extraction metrics_config extraction !! name metric
       = Some (mkMetricValues (em_current kept) (em_previous kept))) ∧
  (∀ metric, metric ∈ er_metrics extraction →
     name metric ∉ dom metrics_config →
     _build_metrics_from_extraction metrics_config extraction !! name metric
     = None) ∧
  _build_metrics_from_extraction metrics_config extraction
  = _build_metrics_from_extraction metrics_config
      (mkExtractionResult (er_report_id extraction)
         (filter (λ metric, name metric ∈ dom metrics_config)
            (er_metrics extraction))).
Proof.
  split; [|split].
  - intros metric Hmetric Hin.
    rewrite build_metrics_lookup by done.
    unfold last_proposal.
    assert (Hfil : metric ∈ filter (λ m, name m = name metric)
                              (er_metrics extraction))
      by (by apply list_elem_of_filter).
    destruct (last (filter _ _)) as [kept|] eqn:Hlast.
    + exists kept. split; [done|]. split; [|done].
      apply last_Some_elem_of in Hlast.
      by apply list_elem_of_filter in Hlast as [? _].
    + apply last_None in Hlast. rewrite Hlast in Hfil.
      by apply elem_of_nil in Hfil.
  - intros metric _ Hout. apply not_elem_of_dom.
    by rewrite build_metrics_dom.
  - unfold _build_metrics_from_extraction. simpl.
    rewrite foldl_build_step_skip at 1.
    by rewrite dom_gset_to_gmap.
Qed.

(** ** The repository *)

Lemma foldl_append_rows (items : list (string * MetricValues)) record :
  foldl (λ record item,
           mkReportRecord (rec_processed_at record) (rec_error record)
             (rec_metrics record ++ [metric_row item]))
    record items
  = mkReportRecord (rec_processed_at record) (rec_error record)
      (rec_metrics record ++ (metric_row <$> items)).
Proof.
  revert record. induction items as [|item items IH]; intros record; simpl.
  - rewrite app_nil_r. by destruct record.
  - rewrite IH. simpl. by rewrite <- app_assoc.
Qed.

(** The record [save] leaves does not depend on what was stored before:
    the old rows are gone, and rows are written only for a report
    without error. *)
Lemma save_record_eq (processed_report : ProcessedData)
    (db : gmap string ReportRecord) :
  save_record processed_report db
  = mkReportRecord (wall_clock (processed_at processed_report))
      (error processed_report)
      (match error processed_report with
       | None => metric_row <$> map_to_list (data processed_report)
       | Some _ => []
       end).
Proof.
  unfold save_record.
  destruct (error processed_report) as [e|] eqn:Herr.
  - by destruct (db !! _).
  - rewrite foldl_append_rows. by destruct (db !! _).
Qed.

Lemma foldl_insert_list_to_map {V} (items : list (string * V)) :
  foldl (λ (metrics : gmap string V) item, <[item.1 := item.2]> metrics) ∅ items
  = list_to_map (reverse items).
Proof.
  induction items as [|item items IH] using rev_ind; [done|].
  rewrite foldl_snoc, reverse_snoc, IH. by destruct item.
Qed.

Lemma metrics_of_rows_metric_row (metrics : gmap string MetricValues) :
  metrics_of_rows (metric_row <$> map_to_list metrics) = metrics.
Proof.
  unfold metrics_of_rows. rewrite foldl_fmap.
  transitivity (foldl (λ (acc : gmap string MetricValues) item,
                         <[item.1 := item.2]> acc) ∅ (map_to_list metrics)).
  { generalize (∅ : gmap string MetricValues).
    induction (map_to_list metrics) as [|[k [c p]] items IH]; intros acc;
      simpl; [done|]. apply IH. }
  rewrite foldl_insert_list_to_map.
  rewrite <- (list_to_map_to_list metrics) at 2.
  symmetry. apply list_to_map_proper.
  - apply NoDup_fst_map_to_list.
  - symmetry. apply reverse_Permutation.
Qed.

(** What [get] returns for the id of the report saved last *)
Lemma get_db_save_db (processed_report : ProcessedData)
    (db : gmap string ReportRecord) :
  get_db (report_id processed_report) (save_db processed_report db)
  = Ok (Some (mkProcessedData (report_id processed_report)
                (match error processed_report with
                 | None => data processed_report
                 | Some _ => ∅
                 end)
                (naive (wall_clock (processed_at processed_report)))
                (error processed_report))).
Proof.
  unfold get_db, save_db. rewrite lookup_insert_eq, UUID_parse_uuid_str.
  rewrite save_record_eq. simpl.
  destruct (error processed_report); [done|].
  by rewrite metrics_of_rows_metric_row.
Qed.

(** Saving under one id leaves the reports under other ids as they are. *)
Lemma get_db_save_db_ne (processed_report : ProcessedData) (id : UUID)
    (db : gmap string ReportRecord) :
  report_id processed_report ≠ id →
  get_db id (save_db processed_report db) = get_db id db.
Proof.
  intros Hne. unfold get_db, save_db.
  rewrite lookup_insert_ne; [done|].
  intros Heq. by apply uuid_str_inj in Heq.
Qed.

(** [get] raises for no id and no database. *)
Lemma get_db_total (id : UUID) (db : gmap string ReportRecord) :
  ∃ found, get_db id db = Ok found.
Proof.
  unfold get_db. rewrite UUID_parse_uuid_str.
  destruct (db !! uuid_str id); eauto.
Qed.

Lemma save_db_twice (processed_report : ProcessedData)
    (db : gmap string ReportRecord) :
  save_db processed_report (save_db processed_report db)
  = save_db processed_report db.
Proof.
  unfold save_db. rewrite !save_record_eq. apply insert_insert_eq.
Qed.

Lemma save_db_exclusive (processed_report : ProcessedData)
    (db : gmap string ReportRecord) :
  map_Forall (λ _, record_exclusive) db →
  map_Forall (λ _, record_exclusive) (save_db processed_report db).
Proof.
  intros Hdb. unfold save_db. apply map_Forall_insert_2; [|done].
  rewrite save_record_eq. unfold record_exclusive. simpl.
  destruct (error processed_report); auto.
Qed.

Lemma saves_exclusive (saves : list ProcessedData) :
  map_Forall (λ _, record_exclusive) (foldl (λ db r, save_db r db) ∅ saves).
Proof.
  induction saves as [|r saves IH] using rev_ind.
  - apply map_Forall_empty.
  - rewrite foldl_snoc. by apply save_db_exclusive.
Qed.

(** C5. Starting from the empty database, after any sequence of [save]
    calls with any arguments (also arguments that carry an error
    together with metrics), a report that [get] returns has no error or
    has an empty metrics mapping. *)
Theorem get_error_metrics_exclusive (saves : list ProcessedData)
    (id : UUID) (found : ProcessedData) :
  get_db id (foldl (λ db r, save_db r db) ∅ saves) = Ok (Some found) →
  error found = None ∨ data found = ∅.
Proof.
  intros Hget. pose proof (saves_exclusive saves) as Hall.
  unfold get_db in Hget.
  destruct (_ !! uuid_str id) as [record|] eqn:Hrec; [|done].
  rewrite UUID_parse_uuid_str in Hget. injection Hget as <-. simpl.
  destruct (Hall _ _ Hrec) as [Herr|Hrows]; [by left|right].
  by rewrite Hrows.
Qed.

(** For a report that keeps the exclusion of error and metrics, [get]
    after [save] returns its id, metrics and error, and its
    [processed_at] without time zone. *)
Lemma get_db_save_db_kept (r : ProcessedData) (db : gmap string ReportRecord) :
  error r = None ∨ data r = ∅ →
  get_db (report_id r) (save_db r db)
  = Ok (Some (mkProcessedData (report_id r) (data r)
                (naive (wall_clock (processed_at r))) (error r))).
Proof.
  intros Hexcl. rewrite get_db_save_db.
  destruct Hexcl as [->|Hdata]; [done|]. rewrite Hdata.
  by destruct (error r).
Qed.

(** A report whose [processed_at] is naive loses nothing with the time
    zone. *)
Lemma naive_processed_at (r : ProcessedData) :
  tzinfo (processed_at r) = None →
  mkProcessedData (report_id r) (data r)
    (naive (wall_clock (processed_at r))) (error r) = r.
Proof.
  destruct r as [id metrics [wall zone] err]. simpl. by intros ->.
Qed.

(** C6, amended. For two reports with the same id, the second without
    error or with an empty metrics mapping: after [save] of the first
    and [save] of the second, [get] returns a report with the id, the
    metrics and the error of the second report and with the date and
    time fields of its [processed_at], which is the second report
    itself when its [processed_at] is naive; the stored rows are those
    of the second report alone, and the database is the one that
    saving the second report alone leaves. *)
Theorem save_overwrites_previous (db : gmap string ReportRecord)
    (r1 r2 : ProcessedData) :
  report_id r1 = report_id r2 →
  error r2 = None ∨ data r2 = ∅ →
  (∃ found,
     get_db (report_id r2) (save_db r2 (save_db r1 db)) = Ok (Some found) ∧
     report_id found = report_id r2 ∧
     data found = data r2 ∧
     error found = error r2 ∧
     wall_clock (processed_at found) = wall_clock (processed_at r2) ∧
     (tzinfo (processed_at r2) = None → found = r2)) ∧
  (rec_metrics <$> save_db r2 (save_db r1 db) !! uuid_str (report_id r2))
  = Some (match error r2 with
          | None => metric_row <$> map_to_list (data r2)
          | Some _ => []
          end) ∧
  save_db r2 (save_db r1 db) = save_db r2 db.
Proof.
  intros Hid Hexcl. split; [|split].
  - eexists. split; [by apply get_db_save_db_kept|].
    repeat (split; [done|]). apply naive_processed_at.
  - unfold save_db at 1. by rewrite lookup_insert_eq, save_record_eq.
  - unfold save_db. rewrite Hid, !save_record_eq. apply insert_insert_eq.
Qed.

(** C7, amended. For a report without error or with an empty metrics
    mapping: [save] twice leaves the database that one [save] leaves,
    and [get] returns a report with the id, the metrics (absent values
    and empty strings kept apart) and the error of the saved report
    and with the date and time fields of its [processed_at]; the
    report returned is equal to the saved one when the [processed_at]
    of that one is naive. *)
Theorem save_idempotent_roundtrip (db : gmap string ReportRecord)
    (r : ProcessedData) :
  error r = None ∨ data r = ∅ →
  save_db r (save_db r db) = save_db r db ∧
  ∃ found,
    get_db (report_id r) (save_db r (save_db r db)) = Ok (Some found) ∧
    get_db (report_id r) (save_db r db) = Ok (Some found) ∧
    report_id found = report_id r ∧
    data found = data r ∧
    error found = error r ∧
    wall_clock (processed_at found) = wall_clock (processed_at r) ∧
    (tzinfo (processed_at r) = None → found = r).
Proof.
  intros Hexcl. rewrite save_db_twice. split; [done|].
  eexists. split; [by apply get_db_save_db_kept|].
  split; [by apply get_db_save_db_kept|].
  repeat (split; [done|]). apply naive_processed_at.
Qed.

(** ** The background run *)

(** Removing the temporary file, named by a string or by nothing,
    never raises and leaves the database alone. *)
Lemma remove_temp_file_ok (temp_file_path : option string) (w : World) :
  ∃ w', remove_temp_file temp_file_path w = (Ok tt, w') ∧ w_db w' = w_db w.
Proof.
  unfold remove_temp_file. run_M.
  destruct (truthy temp_file_path); simpl; [|eauto].
  destruct (bool_decide _); [|eauto].
  unfold os_remove. destruct (decide _); simpl; eauto.
Qed.

Lemma process_fails (self : ReportDataProcessor) (data : ReportFileData)
    (w : World) prompt exc :
  format_prompt (_prompt_template self) (metadata data) (content data)
    (metrics_config self) = Ok prompt →
  _structured_llm self prompt = Fails exc →
  is_Exception (exc_class exc) = true →
  ∃ w', process self data w = (Ok (inr exc), w') ∧
    w_db w' = w_db w ∧
    w_clock w' = w_clock w ∧ w_clock_reads w' = w_clock_reads w.
Proof.
  intros Hfmt Hllm Hexc. unfold process. run_M.
  rewrite Hfmt, Hllm, Hexc. simpl. eauto.
Qed.

Lemma process_answers (self : ReportDataProcessor) (data : ReportFileData)
    (w : World) prompt extraction :
  format_prompt (_prompt_template self) (metadata data) (content data)
    (metrics_config self) = Ok prompt →
  _structured_llm self prompt = Answers extraction →
  ∃ w', process self data w
        = (Ok (inl (mkProcessedData (w_uuids w (w_uuid_draws w))
                      (_build_metrics_from_extraction (metrics_config self)
                         extraction)
                      (utc (w_clock w (w_clock_reads w))) None)), w') ∧
    w_db w' = w_db w.
Proof.
  intros Hfmt Hllm. unfold process. run_M.
  rewrite Hfmt, Hllm. simpl. eauto.
Qed.

(** The orchestrator by itself: an exception that the processor
    returns becomes a failed report under the generated id. *)
Lemma process_in_background_returned_exception (builder : ReportDataBuilder)
    (data : ReportFileData) (generated_id : UUID) (w w1 : World) exc :
  builder_process builder data w = (Ok (inr exc), w1) →
  is_Exception (exc_class exc) = true →
  ∃ w', process_in_background builder data generated_id w = (Ok tt, w') ∧
    w_db w' = save_db (mkProcessedData generated_id ∅
                         (utc (w_clock w1 (w_clock_reads w1)))
                         (Some (exc_str exc)))
                (w_db w1).
Proof.
  intros Hproc Hexc. unfold process_in_background, bind at 1.
  rewrite Hproc, Hexc. run_M.
  match goal with |- context [remove_temp_file ?p ?w2] =>
    destruct (remove_temp_file_ok p w2) as (w' & -> & Hdb')
  end.
  exists w'. split; [done|]. by rewrite Hdb'.
Qed.

(** The orchestrator by itself: a report that the processor returns is
    saved with its id replaced by the generated id. *)
Lemma process_in_background_returned_data (builder : ReportDataBuilder)
    (data : ReportFileData) (generated_id : UUID) (w w1 : World) processed :
  builder_process builder data w = (Ok (inl processed), w1) →
  ∃ w', process_in_background builder data generated_id w = (Ok tt, w') ∧
    w_db w' = save_db (model_copy_report_id processed generated_id) (w_db w1).
Proof.
  intros Hproc. unfold process_in_background, bind at 1.
  rewrite Hproc. run_M.
  match goal with |- context [remove_temp_file ?p ?w2] =>
    destruct (remove_temp_file_ok p w2) as (w' & -> & Hdb')
  end.
  exists w'. split; [done|]. by rewrite Hdb'.
Qed.

(** The run after a failed extraction: the failed report is saved under
    the generated id and the run ends normally. *)
Lemma process_in_background_fails (builder : ReportDataBuilder)
    (data : ReportFileData) (generated_id : UUID) (w : World) prompt exc :
  format_prompt (_prompt_template (build_processor builder)) (metadata data)
    (content data) (metrics_config (build_processor builder)) = Ok prompt →
  _structured_llm (build_processor builder) prompt = Fails exc →
  is_Exception (exc_class exc) = true →
  ∃ w', process_in_background builder data generated_id w = (Ok tt, w') ∧
    w_db w' = save_db (mkProcessedData generated_id ∅
                         (utc (w_clock w (w_clock_reads w)))
                         (Some (exc_str exc)))
                (w_db w).
Proof.
  intros Hfmt Hllm Hexc.
  destruct (process_fails _ data w _ _ Hfmt Hllm Hexc)
    as (w1 & Hproc & Hdb & Hclock & Hreads).
  destruct (process_in_background_returned_exception builder data
              generated_id w w1 exc Hproc Hexc) as (w' & Hrun & Hdb').
  exists w'. split; [done|].
  by rewrite Hdb', Hdb, Hclock, Hreads.
Qed.

(** The run after a successful extraction: the normalized metrics are
    saved under the generated id, without error. *)
Lemma process_in_background_answers (builder : ReportDataBuilder)
    (data : ReportFileData) (generated_id : UUID) (w : World)
    prompt extraction :
  format_prompt (_prompt_template (build_processor builder)) (metadata data)
    (content data) (metrics_config (build_processor builder)) = Ok prompt →
  _structured_llm (build_processor builder) prompt = Answers extraction →
  ∃ w', process_in_background builder data generated_id w = (Ok tt, w') ∧
    w_db w' = save_db (mkProcessedData generated_id
                         (_build_metrics_from_extraction
                            (metrics_config (build_processor builder))
                            extraction)
                         (utc (w_clock w (w_clock_reads w))) None)
                (w_db w).
Proof.
  intros Hfmt Hllm.
  destruct (process_answers _ data w _ _ Hfmt Hllm) as (w1 & Hproc & Hdb).
  destruct (process_in_background_returned_data builder data generated_id
              w w1 _ Hproc) as (w' & Hrun & Hdb').
  exists w'. split; [done|].
  by rewrite Hdb', Hdb.
Qed.

(** Where the containment ends: what [process] raises before or
    outside its [try] leaves the run before [save]. *)
Lemma process_in_background_prompt_error (builder : ReportDataBuilder)
    (data : ReportFileData) (generated_id : UUID) (w : World) e :
  format_prompt (_prompt_template (build_processor builder)) (metadata data)
    (content data) (metrics_config (build_processor builder)) = Raise e →
  process_in_background builder data generated_id w = (Raise e, w).
Proof.
  intros Hfmt. unfold process_in_background, builder_process, process. run_M.
  by rewrite Hfmt.
Qed.

Lemma process_in_background_base_exception (builder : ReportDataBuilder)
    (data : ReportFileData) (generated_id : UUID) (w : World) prompt exc :
  format_prompt (_prompt_template (build_processor builder)) (metadata data)
    (content data) (metrics_config (build_processor builder)) = Ok prompt →
  _structured_llm (build_processor builder) prompt = Fails exc →
  is_Exception (exc_class exc) = false →
  process_in_background builder data generated_id w = (Raise exc, w).
Proof.
  intros Hfmt Hllm Hexc.
  unfold process_in_background, builder_process, process. run_M.
  by rewrite Hfmt, Hllm, Hexc.
Qed.


(** ** The handlers *)

(** The processor the container builds works on the schema of the
    builder and calls the container's LLM. *)
Lemma container_processor (container : AppContainer) :
  metrics_config (build_processor (report_data_builder container))
  = builder_metrics_config (report_data_builder container) ∧
  _structured_llm (build_processor (report_data_builder container))
  = llm container.
Proof. split; [apply list_to_map_to_list|done]. Qed.

(** The id in the response of [upload_report] is the id handed to the
    background task. *)
Lemma upload_report_task_id (container : AppContainer) (file : UploadFile)
    (w w0 : World) response data generated_id :
  upload_report container file w = (Ok (response, (data, generated_id)), w0) →
  generated_id = upload_report_id response.
Proof.
  unfold upload_report.
  destruct (_ || _); [discriminate|].
  destruct (negb _); [discriminate|].
  unfold bind at 1. destruct (_persist_upload file w) as [[temp_path|e] w1];
    [|discriminate].
  unfold bind at 1.
  destruct (try_except _ _ _ w1) as [[[rows file_data]|e] w2]; [|discriminate].
  run_M. by intros [= <- <- <- <-].
Qed.

Lemma get_processed_report_missing (report_id' : UUID) (w : World) :
  get_db report_id' (w_db w) = Ok None →
  get_processed_report report_id' w
  = (Raise (HTTPException 404 "Report not found"), w).
Proof. intros Hget. unfold get_processed_report. run_M. by rewrite Hget. Qed.

Lemma get_processed_report_failed (report_id' : UUID) (w : World) found :
  get_db report_id' (w_db w) = Ok (Some found) →
  truthy (error found) = true →
  ∃ w', get_processed_report report_id' w
        = (Raise (HTTPException 500
                    "Report processing failed. Please try again later."), w') ∧
    w_db w' = w_db w.
Proof.
  intros Hget Herr. unfold get_processed_report. run_M.
  rewrite Hget, Herr. simpl. eauto.
Qed.

Lemma get_processed_report_payload (report_id' : UUID) (w : World) found :
  get_db report_id' (w_db w) = Ok (Some found) →
  truthy (error found) = false →
  get_processed_report report_id' w
  = (Ok (mkProcessedReportResponse (report_id found)
           (isoformat (processed_at found)) (data found)), w).
Proof.
  intros Hget Herr. unfold get_processed_report. run_M.
  by rewrite Hget, Herr.
Qed.


(** C9. A run whose extractor raises an exception with an empty [str]
    stores the empty string as [error]; for a stored report whose
    [error] is the empty string [get_processed_report] returns the
    payload with the stored metrics and [processed_at], not the
    failure response, and after such a run the payload carries the
    empty mapping. *)
Theorem empty_error_is_served_as_success (builder : ReportDataBuilder)
    (document : ReportFileData) (generated_id : UUID) (w : World) prompt exc :
  format_prompt (_prompt_template (build_processor builder)) (metadata document)
    (content document) (metrics_config (build_processor builder)) = Ok prompt →
  _structured_llm (build_processor builder) prompt = Fails exc →
  is_Exception (exc_class exc) = true →
  exc_str exc = "" →
  (∀ report_id' w1 found,
     get report_id' w1 = (Ok (Some found), w1) → error found = Some "" →
     get_processed_report report_id' w1
     = (Ok (mkProcessedReportResponse (report_id found)
              (isoformat (processed_at found)) (data found)), w1)) ∧
  ∃ w' now,
    process_in_background builder document generated_id w = (Ok tt, w') ∧
    get generated_id w'
    = (Ok (Some (mkProcessedData generated_id ∅ now (Some ""))), w') ∧
    get_processed_report generated_id w'
    = (Ok (mkProcessedReportResponse generated_id (isoformat now) ∅), w').
Proof.
  intros Hfmt Hllm Hexc Hstr. split.
  - intros report_id' w1 found Hget Herr.
    apply get_processed_report_payload.
    + unfold get in Hget. by injection Hget.
    + by rewrite Herr.
  - destruct (process_in_background_fails builder document generated_id w _ _
                Hfmt Hllm Hexc) as (w' & Hrun & Hdb).
    rewrite Hstr in Hdb.
    assert (Hget : get_db generated_id (w_db w')
                   = Ok (Some (mkProcessedData generated_id ∅
                                 (naive (w_clock w (w_clock_reads w)))
                                 (Some ""))))
      by (rewrite Hdb;
          by rewrite (get_db_save_db (mkProcessedData generated_id ∅ _ _))).
    exists w', (naive (w_clock w (w_clock_reads w))).
    split; [done|]. split; [unfold get; by rewrite Hget|].
    by rewrite (get_processed_report_payload _ _ _ Hget).
Qed.

(** Two runs whose processors are set up alike and whose extractors
    answer with metrics that normalize alike are the same run. *)
Lemma process_in_background_same_metrics (builder1 builder2 : ReportDataBuilder)
    (document : ReportFileData) (generated_id : UUID) (w : World)
    prompt extraction1 extraction2 :
  let processor1 := build_processor builder1 in
  let processor2 := build_processor builder2 in
  format_prompt (_prompt_template processor1) (metadata document)
    (content document) (metrics_config processor1) = Ok prompt →
  format_prompt (_prompt_template processor2) (metadata document)
    (content document) (metrics_config processor2) = Ok prompt →
  _structured_llm processor1 prompt = Answers extraction1 →
  _structured_llm processor2 prompt = Answers extraction2 →
  _build_metrics_from_extraction (metrics_config processor1) extraction1
  = _build_metrics_from_extraction (metrics_config processor2) extraction2 →
  process_in_background builder1 document generated_id w
  = process_in_background builder2 document generated_id w.
Proof.
  intros processor1 processor2 Hfmt1 Hfmt2 Hllm1 Hllm2 Hbuild.
  unfold process_in_background, builder_process, process. run_M.
  fold processor1 processor2.
  by rewrite Hfmt1, Hfmt2, Hllm1, Hllm2, Hbuild.
Qed.

(** C10. Two requests that differ only in what the extractor answers
    are answered with the same id, settled by the handler before the
    background task starts; in both, the report is stored under that
    id and carries it, the same ids are stored afterwards, and the
    [report_id] that the extractor proposes is not read: answers with
    the same metrics leave the same world. *)
Theorem report_id_independent_of_extraction
    (llm1 llm2 : string → LLMOutcome) (prompt_template : option string)
    (metrics : option (gmap string MetricConfig)) (reader : ReportFileReader)
    (file : UploadFile) (w w0 : World) response document generated_id
    prompt extraction1 extraction2 :
  let container1 := mkAppContainer llm1 prompt_template metrics reader in
  let container2 := mkAppContainer llm2 prompt_template metrics reader in
  let processor := build_processor (report_data_builder container1) in
  upload_report container1 file w
  = (Ok (response, (document, generated_id)), w0) →
  format_prompt (_prompt_template processor) (metadata document)
    (content document) (metrics_config processor) = Ok prompt →
  llm1 prompt = Answers extraction1 →
  llm2 prompt = Answers extraction2 →
  ∃ w1 w2 found1 found2,
    post_reports container1 file w = (Ok response, w1) ∧
    post_reports container2 file w = (Ok response, w2) ∧
    get (upload_report_id response) w1 = (Ok (Some found1), w1) ∧
    get (upload_report_id response) w2 = (Ok (Some found2), w2) ∧
    report_id found1 = upload_report_id response ∧
    report_id found2 = upload_report_id response ∧
    dom (w_db w1) = dom (w_db w2) ∧
    (er_metrics extraction1 = er_metrics extraction2 → w1 = w2).
Proof.
  intros container1 container2 processor Hupload Hfmt Hllm1 Hllm2.
  assert (Hupload2 : upload_report container2 file w
                     = (Ok (response, (document, generated_id)), w0))
    by exact Hupload.
  pose proof (upload_report_task_id _ _ _ _ _ _ _ Hupload) as ->.
  destruct (process_in_background_answers (report_data_builder container1)
              document (upload_report_id response) w0 prompt extraction1
              Hfmt Hllm1) as (w1 & Hrun1 & Hdb1).
  destruct (process_in_background_answers (report_data_builder container2)
              document (upload_report_id response) w0 prompt extraction2
              Hfmt Hllm2) as (w2 & Hrun2 & Hdb2).
  eexists w1, w2, _, _.
  split; [unfold post_reports; by rewrite Hupload, Hrun1|].
  split; [unfold post_reports; by rewrite Hupload2, Hrun2|].
  split.
  { unfold get. rewrite Hdb1.
    by rewrite (get_db_save_db
                  (mkProcessedData (upload_report_id response) _ _ None)). }
  split.
  { unfold get. rewrite Hdb2.
    by rewrite (get_db_save_db
                  (mkProcessedData (upload_report_id response) _ _ None)). }
  split; [done|]. split; [done|]. split.
  - rewrite Hdb1, Hdb2. unfold save_db. by rewrite !dom_insert_L.
  - intros Hmetrics.
    assert (Hsame : process_in_background (report_data_builder container1)
                      document (upload_report_id response) w0
                    = process_in_background (report_data_builder container2)
                        document (upload_report_id response) w0).
    { apply (process_in_background_same_metrics _ _ _ _ _ prompt
               extraction1 extraction2); try done.
      unfold _build_metrics_from_extraction. by rewrite Hmetrics. }
    rewrite Hsame, Hrun2 in Hrun1. by injection Hrun1.
Qed.

(** * Further properties *)

(** ** The normalizer *)

Lemma last_proposal_None metric_name proposals :
  (∀ metric, metric ∈ proposals → name metric ≠ metric_name) →
  last_proposal metric_name proposals = None.
Proof.
  intros Hnone. unfold last_proposal.
  destruct (filter _ proposals) as [|metric kept] eqn:Hfil; [done|].
  assert (Hin : metric ∈ filter (λ m, name m = metric_name) proposals)
    by (rewrite Hfil; apply list_elem_of_here).
  apply list_elem_of_filter in Hin as [Hname Hin].
  by destruct (Hnone metric Hin).
Qed.

(** X1. A metric of the schema for which no proposal carries its name
    is present in the result with both values absent. *)
Theorem build_metrics_unmatched_absent
    (metrics_config : gmap string MetricConfig)
    (extraction : ExtractionResult) metric_name :
  metric_name ∈ dom metrics_config →
  (∀ metric, metric ∈ er_metrics extraction → name metric ≠ metric_name) →
  _build_metrics_from_extraction metrics_config extraction !! metric_name
  = Some (mkMetricValues None None).
Proof.
  intros Hin Hnone. rewrite build_metrics_lookup by done.
  by rewrite last_proposal_None.
Qed.

Lemma filter_name_short metric_name (proposals : list ExtractedMetric) :
  NoDup (name <$> proposals) →
  (length (filter (λ metric, name metric = metric_name) proposals) ≤ 1)%nat.
Proof.
  induction proposals as [|metric proposals IH]; intros Hdup; [simpl; lia|].
  rewrite fmap_cons in Hdup. apply NoDup_cons in Hdup as [Hfresh Hdup].
  rewrite filter_cons.
  destruct (decide (name metric = metric_name)) as [<-|Hne]; [|by apply IH].
  destruct (filter _ proposals) as [|other kept] eqn:Hfil; [simpl; lia|].
  assert (Hin : other ∈ filter (λ m, name m = name metric) proposals)
    by (rewrite Hfil; apply list_elem_of_here).
  apply list_elem_of_filter in Hin as [Hname Hin].
  destruct Hfresh. rewrite <- Hname. by apply list_elem_of_fmap_2.
Qed.

Lemma last_proposal_Permutation metric_name proposals1 proposals2 :
  proposals1 ≡ₚ proposals2 →
  NoDup (name <$> proposals1) →
  last_proposal metric_name proposals1 = last_proposal metric_name proposals2.
Proof.
  intros Hperm Hdup. unfold last_proposal.
  pose proof (filter_name_short metric_name proposals1 Hdup) as Hshort.
  assert (Hfil : filter (λ m, name m = metric_name) proposals1
                 ≡ₚ filter (λ m, name m = metric_name) proposals2)
    by (by rewrite Hperm).
  destruct (filter _ proposals1) as [|metric [|other kept]];
    [| |simpl in Hshort; lia].
  - by apply Permutation_nil_l in Hfil as ->.
  - by apply Permutation_singleton_l in Hfil as ->.
Qed.

(** X2. When no two proposals share a name, the order of the proposals
    does not matter: any rearrangement of the list normalizes to the
    same mapping. *)
Theorem build_metrics_order_irrelevant
    (metrics_config : gmap string MetricConfig)
    (extraction1 extraction2 : ExtractionResult) :
  er_metrics extraction1 ≡ₚ er_metrics extraction2 →
  NoDup (name <$> er_metrics extraction1) →
  _build_metrics_from_extraction metrics_config extraction1
  = _build_metrics_from_extraction metrics_config extraction2.
Proof.
  intros Hperm Hdup. apply map_eq. intros metric_name.
  destruct (decide (metric_name ∈ dom metrics_config)) as [Hin|Hout].
  - rewrite !build_metrics_lookup by done.
    by rewrite (last_proposal_Permutation _ _ _ Hperm Hdup).
  - transitivity (@None MetricValues); [|symmetry];
      apply not_elem_of_dom; by rewrite build_metrics_dom.
Qed.

(** X3. Proposals that come later in the list take precedence: for a
    metric of the schema, a list [earlier ++ later] gives the fields of
    the last proposal of that name in [later], and what [earlier] alone
    gives when [later] has none. *)
Theorem build_metrics_later_batch_wins
    (metrics_config : gmap string MetricConfig) proposed_id
    (earlier later : list ExtractedMetric) metric_name :
  metric_name ∈ dom metrics_config →
  _build_metrics_from_extraction metrics_config
    (mkExtractionResult proposed_id (earlier ++ later)) !! metric_name
  = match last_proposal metric_name later with
    | Some kept => Some (mkMetricValues (em_current kept) (em_previous kept))
    | None =>
        _build_metrics_from_extraction metrics_config
          (mkExtractionResult proposed_id earlier) !! metric_name
    end.
Proof.
  intros Hin. rewrite !build_metrics_lookup by done. simpl.
  unfold last_proposal. rewrite list.filter_app, last_app.
  by destruct (last (filter _ later)).
Qed.


(** ** The repository *)

Lemma last_saved_snoc (id : UUID) (saves : list ProcessedData) r :
  last_saved id (saves ++ [r])
  = if decide (report_id r = id) then Some r else last_saved id saves.
Proof.
  unfold last_saved. rewrite list.filter_app, last_app.
  rewrite filter_cons, filter_nil.
  by destruct (decide (report_id r = id)).
Qed.

(** X4. After any sequence of [save] calls on an empty database, [get]
    returns for an id what the last call with that id stored (its id
    and error, its metrics only if it has no error, its [processed_at]
    without time zone), and nothing for an id that no call carried. *)
Theorem get_after_saves (saves : list ProcessedData) (id : UUID) :
  get_db id (saved_db saves) = Ok (as_stored <$> last_saved id saves).
Proof.
  unfold saved_db. induction saves as [|r saves IH] using rev_ind.
  - done.
  - rewrite foldl_snoc, last_saved_snoc.
    destruct (decide (report_id r = id)) as [<-|Hne].
    + by rewrite get_db_save_db.
    + by rewrite get_db_save_db_ne.
Qed.

(** X5. [save] changes what [get] returns for the id of the saved
    report only: for every other id and every database the answer of
    [get] is the one from before the call. *)
Theorem save_leaves_other_ids (r : ProcessedData) (id : UUID)
    (db : gmap string ReportRecord) :
  report_id r ≠ id →
  get_db id (save_db r db) = get_db id db.
Proof. apply get_db_save_db_ne. Qed.

(** X6. Two [save] calls for different ids commute: either order
    leaves the same database. *)
Theorem save_commutes (r1 r2 : ProcessedData)
    (db : gmap string ReportRecord) :
  report_id r1 ≠ report_id r2 →
  save_db r1 (save_db r2 db) = save_db r2 (save_db r1 db).
Proof.
  intros Hne. unfold save_db. rewrite !save_record_eq.
  apply insert_insert_ne. intros Heq. by apply uuid_str_inj in Heq.
Qed.

(** X7. A [save] erases every trace of an earlier [save] with the same
    id, whatever the two reports hold: the database is the one the
    later call alone leaves.  With twice the same report, [save] is
    idempotent. *)
Theorem save_replaces (r1 r2 : ProcessedData)
    (db : gmap string ReportRecord) :
  report_id r1 = report_id r2 →
  save_db r2 (save_db r1 db) = save_db r2 db.
Proof.
  intros Hid. unfold save_db. rewrite Hid, !save_record_eq.
  apply insert_insert_eq.
Qed.

(** X8. A report saved with an error comes back from [get] with that
    error, with the date and time of its [processed_at] but no time
    zone, and with an empty metrics mapping, whatever metrics it
    carried and whatever the database held. *)
Theorem save_error_drops_metrics (r : ProcessedData)
    (db : gmap string ReportRecord) e :
  error r = Some e →
  get_db (report_id r) (save_db r db)
  = Ok (Some (mkProcessedData (report_id r) ∅
                (naive (wall_clock (processed_at r))) (Some e))).
Proof. intros Herr. by rewrite get_db_save_db, Herr. Qed.

Lemma foldl_rows_lookup (rows : list ReportMetricRecord)
    (metrics : gmap string MetricValues) metric_name :
  foldl (λ metrics metric,
           <[row_name metric :=
               mkMetricValues (current_value metric) (previous_value metric)]>
             metrics) metrics rows !! metric_name
  = match last (filter (λ row, row_name row = metric_name) rows) with
    | Some row => Some (mkMetricValues (current_value row) (previous_value row))
    | None => metrics !! metric_name
    end.
Proof.
  revert metrics. induction rows as [|row rows IH]; intros metrics; simpl;
    [done|].
  rewrite IH, filter_cons.
  destruct (decide (row_name row = metric_name)) as [<-|Hne].
  - rewrite last_cons, lookup_insert_eq. by destruct (last _).
  - by rewrite lookup_insert_ne.
Qed.

(** X9. When the stored rows of a report hold a metric name more than
    once, the mapping [get] builds keeps the values of the last such
    row; a name without row is absent from the mapping. *)
Theorem metrics_of_rows_last_row (rows : list ReportMetricRecord) metric_name :
  metrics_of_rows rows !! metric_name
  = (λ row, mkMetricValues (current_value row) (previous_value row))
    <$> last (filter (λ row, row_name row = metric_name) rows).
Proof.
  unfold metrics_of_rows. rewrite foldl_rows_lookup, lookup_empty.
  by destruct (last _).
Qed.

(** X10. The rows [save] writes for a metrics mapping are read back by
    [get] as the same mapping: names, values, and the difference
    between an absent value and an empty string survive. *)
Theorem metrics_rows_roundtrip (metrics : gmap string MetricValues) :
  metrics_of_rows (metric_row <$> map_to_list metrics) = metrics.
Proof. apply metrics_of_rows_metric_row. Qed.

Lemma get_returns_requested_id_cases (id : UUID)
    (db : gmap string ReportRecord) :
  (get_db id db = Ok None ∧ uuid_str id ∉ dom db) ∨
  (∃ found, get_db id db = Ok (Some found) ∧ report_id found = id ∧
     uuid_str id ∈ dom db).
Proof.
  unfold get_db. rewrite UUID_parse_uuid_str.
  destruct (db !! uuid_str id) as [record|] eqn:Hrec.
  - right. eexists. split; [done|]. split; [done|].
    apply elem_of_dom. eauto.
  - left. split; [done|]. by apply not_elem_of_dom.
Qed.

(** X11. [get] never raises: for every database and id it returns
    nothing, exactly when no record is stored under the id, or a report
    that carries the requested id. *)
Theorem get_returns_requested_id (id : UUID) (db : gmap string ReportRecord) :
  (get_db id db = Ok None ∧ uuid_str id ∉ dom db) ∨
  (∃ found, get_db id db = Ok (Some found) ∧ report_id found = id ∧
     uuid_str id ∈ dom db).
Proof. apply get_returns_requested_id_cases. Qed.


(** ** The processor and the background run *)

Lemma process_raise_cases (self : ReportDataProcessor)
    (document : ReportFileData) (w w1 : World) e :
  process self document w = (Raise e, w1) →
  w1 = w ∧
  (format_prompt (_prompt_template self) (metadata document)
     (content document) (metrics_config self) = Raise e ∨
   ∃ prompt,
     format_prompt (_prompt_template self) (metadata document)
       (content document) (metrics_config self) = Ok prompt ∧
     _structured_llm self prompt = Fails e ∧
     is_Exception (exc_class e) = false).
Proof.
  unfold process. run_M.
  destruct (format_prompt _ _ _ _) as [prompt|e'] eqn:Hfmt.
  - destruct (_structured_llm self prompt) as [extraction|exc] eqn:Hllm;
      [discriminate|].
    destruct (is_Exception (exc_class exc)) eqn:Hexc; [discriminate|].
    intros [= <- <-]. split; [done|]. right. by exists prompt.
  - intros [= <- <-]. split; [done|]. by left.
Qed.

(** X12. [process] raises in two cases only: the prompt cannot be
    rendered, or the LLM call raises outside the [Exception] hierarchy;
    in both the world is left as it was.  Every other failure of the
    LLM call is returned as a value. *)
Theorem process_raises_only (self : ReportDataProcessor)
    (document : ReportFileData) (w w1 : World) e :
  process self document w = (Raise e, w1) →
  w1 = w ∧
  (format_prompt (_prompt_template self) (metadata document)
     (content document) (metrics_config self) = Raise e ∨
   ∃ prompt,
     format_prompt (_prompt_template self) (metadata document)
       (content document) (metrics_config self) = Ok prompt ∧
     _structured_llm self prompt = Fails e ∧
     is_Exception (exc_class e) = false).
Proof. apply process_raise_cases. Qed.

(** What [process] leaves alone: the database, the files, the sources
    of time and of identifiers. *)
Lemma process_frame (self : ReportDataProcessor) (document : ReportFileData)
    (w : World) :
  let w1 := (process self document w).2 in
  w_db w1 = w_db w ∧ w_files w1 = w_files w ∧ w_locked w1 = w_locked w ∧
  w_uuids w1 = w_uuids w ∧ (w_uuid_draws w ≤ w_uuid_draws w1)%nat ∧
  w_tmp_names w1 = w_tmp_names w ∧ w_tmp_made w1 = w_tmp_made w.
Proof.
  unfold process. run_M.
  destruct (format_prompt _ _ _ _) as [prompt|e]; simpl; [|auto 10].
  destruct (_structured_llm self prompt) as [extraction|exc]; simpl;
    [auto 10 with lia|].
  destruct (is_Exception (exc_class exc)); simpl; auto 10.
Qed.

Lemma remove_temp_file_frame (temp_file_path : option string) (w : World) :
  ∃ w', remove_temp_file temp_file_path w = (Ok tt, w') ∧
    w_db w' = w_db w ∧ w_locked w' = w_locked w ∧
    w_uuids w' = w_uuids w ∧ w_uuid_draws w' = w_uuid_draws w ∧
    w_tmp_names w' = w_tmp_names w ∧ w_tmp_made w' = w_tmp_made w ∧
    w_files w'
    = if decide (truthy temp_file_path = true ∧
                 default "" temp_file_path ∉ w_locked w)
      then w_files w ∖ {[default "" temp_file_path]}
      else w_files w.
Proof.
  unfold remove_temp_file. run_M.
  destruct (truthy temp_file_path) eqn:Htruthy; simpl.
  - destruct (bool_decide _) eqn:Hthere; simpl.
    + apply bool_decide_eq_true in Hthere. unfold os_remove.
      destruct (decide (default "" temp_file_path ∈ w_files w ∧ _))
        as [[_ Hfree]|Hheld]; simpl.
      * eexists. split; [done|]. repeat (split; [done|]).
        by rewrite decide_True.
      * eexists. split; [done|]. repeat (split; [done|]).
        rewrite decide_False; [done|]. intros [_ Hfree]. by apply Hheld.
    + apply bool_decide_eq_false in Hthere.
      eexists. split; [done|]. repeat (split; [done|]).
      destruct (decide _); [|done].
      apply set_eq. intros path. rewrite elem_of_difference, elem_of_singleton.
      split; [|by intros [? _]]. intros Hpath. split; [done|].
      by intros ->.
  - eexists. split; [done|]. by repeat (split; [done|]).
Qed.

(** The outcomes of a background run, with what each leaves behind *)
Lemma process_in_background_outcomes (builder : ReportDataBuilder)
    (document : ReportFileData) (generated_id : UUID) (w : World) :
  (∃ e w', process_in_background builder document generated_id w
           = (Raise e, w') ∧
     w_db w' = w_db w ∧ w_files w' = w_files w) ∨
  (∃ r w', process_in_background builder document generated_id w
           = (Ok tt, w') ∧
     report_id r = generated_id ∧ w_db w' = save_db r (w_db w) ∧
     w_files w'
     = if decide (truthy (metadata document !! "source") = true ∧
                  default "" (metadata document !! "source") ∉ w_locked w)
       then w_files w ∖ {[default "" (metadata document !! "source")]}
       else w_files w).
Proof.
  pose proof (process_frame (build_processor builder) document w) as Hframe.
  remember (process_in_background builder document generated_id w)
    as outcome eqn:Hrun.
  symmetry in Hrun. revert Hrun.
  unfold process_in_background, builder_process, bind at 1.
  destruct (process (build_processor builder) document w)
    as [[[processed|exc]|e] w1]; simpl in Hframe;
    destruct Hframe as (Hdb & Hfiles & Hlocked & _).
  - run_M.
    match goal with |- context [remove_temp_file ?p ?w2] =>
      destruct (remove_temp_file_frame p w2)
        as (w' & -> & Hdb' & _ & _ & _ & _ & _ & Hfiles')
    end.
    intros <-. right.
    exists (model_copy_report_id processed generated_id), w'.
    split; [done|]. split; [done|]. simpl in *.
    by rewrite Hdb', Hfiles', Hdb, Hfiles, Hlocked.
  - destruct (is_Exception (exc_class exc)); run_M.
    + match goal with |- context [remove_temp_file ?p ?w2] =>
        destruct (remove_temp_file_frame p w2)
          as (w' & -> & Hdb' & _ & _ & _ & _ & _ & Hfiles')
      end.
      intros <-. right.
      eexists (mkProcessedData generated_id ∅ _ _), w'.
      split; [done|]. split; [done|]. simpl in *.
      by rewrite Hdb', Hfiles', Hdb, Hfiles, Hlocked.
    + intros <-. left. by eexists _, _.
  - intros <-. left. by eexists _, _.
Qed.


(** X14. A background run leaves the reports under every other id as
    they are, whatever the extractor does. *)
Theorem process_in_background_leaves_other_ids (builder : ReportDataBuilder)
    (document : ReportFileData) (generated_id id : UUID) (w : World) :
  id ≠ generated_id →
  get_db id (w_db (process_in_background builder document generated_id w).2)
  = get_db id (w_db w).
Proof.
  intros Hne.
  destruct (process_in_background_outcomes builder document generated_id w)
    as [(e & w' & -> & Hdb & _)|(r & w' & -> & Hid & Hdb & _)]; simpl.
  - by rewrite Hdb.
  - rewrite Hdb. apply get_db_save_db_ne. by rewrite Hid.
Qed.

(** X16. When the processor raises, the run raises the same exception
    before it reaches [save] and the removal of the temporary file: the
    world is exactly the one from before the run. *)
Theorem process_in_background_aborts (builder : ReportDataBuilder)
    (document : ReportFileData) (generated_id : UUID) (w w1 : World) e :
  builder_process builder document w = (Raise e, w1) →
  process_in_background builder document generated_id w = (Raise e, w).
Proof.
  intros Hproc.
  destruct (process_raise_cases _ _ _ _ _ Hproc) as [-> _].
  unfold process_in_background, bind at 1. by rewrite Hproc.
Qed.


(** ** The upload handler *)

(** The outcomes of [_persist_upload] by the size of the upload *)
Lemma persist_upload_cases (upload : UploadFile) (w : World) :
  let temp_file := w_tmp_names w (w_tmp_made w) in
  ((MAX_UPLOAD_SIZE_BYTES < upload_size upload)%nat ∧
   _persist_upload upload w
   = (Raise (HTTPException 422 "File exceeded 2MB limit"), w)) ∨
  (upload_size upload = 0%nat ∧
   _persist_upload upload w
   = (Raise (HTTPException 422 "Uploaded file is empty"), w)) ∨
  ((0 < upload_size upload ≤ MAX_UPLOAD_SIZE_BYTES)%nat ∧
   ((copy_error upload = None ∧
     ∃ w', _persist_upload upload w = (Ok temp_file, w') ∧
       w_db w' = w_db w ∧ w_files w' = {[temp_file]} ∪ w_files w ∧
       w_locked w' = w_locked w ∧
       w_uuids w' = w_uuids w ∧ w_uuid_draws w' = w_uuid_draws w) ∨
    (∃ exc e w', copy_error upload = Some exc ∧
       _persist_upload upload w = (Raise e, w') ∧
       w_db w' = w_db w ∧
       (is_Exception (exc_class exc) = true → temp_file ∉ w_locked w →
        e = Unhandled exc ∧ temp_file ∉ w_files w')))).
Proof.
  intros temp_file. unfold _persist_upload. fold (upload_size upload).
  destruct (decide (MAX_UPLOAD_SIZE_BYTES < upload_size upload)%nat)
    as [Hbig|Hfits]; [by left|].
  destruct (decide (upload_size upload = 0%nat)) as [Hempty|Hsome];
    [by right; left|].
  right. right. split; [lia|]. run_M. fold temp_file.
  destruct (copy_error upload) as [exc|]; [right|left; by eauto 10].
  destruct (is_Exception (exc_class exc)) eqn:Hexc; simpl.
  - unfold os_remove. simpl.
    destruct (decide (temp_file ∈ {[temp_file]} ∪ w_files w ∧ _))
      as [[_ Hfree]|Hheld]; simpl.
    + eexists exc, _, _. split; [done|]. split; [done|]. split; [done|].
      intros _ _. split; [done|]. simpl.
      rewrite elem_of_difference, elem_of_singleton. by intros [_ ?].
    + eexists exc, _, _. split; [done|]. split; [done|]. split; [done|].
      intros _ Hfree. exfalso. apply Hheld. split; [|exact Hfree].
      apply elem_of_union_l. by apply elem_of_singleton.
  - eexists exc, _, _. split; [done|]. split; [done|]. split; [done|].
    intros Hexc'. rewrite Hexc in Hexc'. discriminate.
Qed.

(** X17. [_persist_upload] decides by the size of the upload, the
    declared size or else the length of the content: above 2 MiB and at
    zero it answers 422 and creates nothing; from one byte up to
    exactly 2 MiB it creates the temporary file, and returns its name
    when the copy succeeds. *)
Theorem persist_upload_size_bounds (upload : UploadFile) (w : World) :
  ((MAX_UPLOAD_SIZE_BYTES < upload_size upload)%nat →
   _persist_upload upload w
   = (Raise (HTTPException 422 "File exceeded 2MB limit"), w)) ∧
  (upload_size upload = 0%nat →
   _persist_upload upload w
   = (Raise (HTTPException 422 "Uploaded file is empty"), w)) ∧
  ((0 < upload_size upload ≤ MAX_UPLOAD_SIZE_BYTES)%nat →
   copy_error upload = None →
   ∃ w', _persist_upload upload w = (Ok (w_tmp_names w (w_tmp_made w)), w') ∧
     w_files w' = {[w_tmp_names w (w_tmp_made w)]} ∪ w_files w).
Proof.
  destruct (persist_upload_cases upload w)
    as [[Hbig Hrun]|[[Hempty Hrun]|[Hfits Hrun]]].
  - split; [done|]. split; intros; lia.
  - split; [intros; lia|]. split; [done|]. intros; lia.
  - split; [intros; lia|]. split; [intros; lia|]. intros _ Hcopy.
    destruct Hrun as [(_ & w' & Hrun & _ & Hfiles & _)
                     |(exc & e & w' & Hcopy' & _)]; [|congruence].
    eauto.
Qed.

(** X18. When copying the upload into the temporary file raises an
    exception, [_persist_upload] removes the file it has just created
    and raises the same exception. *)
Theorem persist_upload_copy_failure (upload : UploadFile) (w : World) exc :
  (0 < upload_size upload ≤ MAX_UPLOAD_SIZE_BYTES)%nat →
  copy_error upload = Some exc →
  is_Exception (exc_class exc) = true →
  w_tmp_names w (w_tmp_made w) ∉ w_locked w →
  ∃ w', _persist_upload upload w = (Raise (Unhandled exc), w') ∧
    (w_tmp_names w (w_tmp_made w) ∉ w_files w') ∧ w_db w' = w_db w.
Proof.
  intros Hfits Hcopy Hexc Hfree.
  destruct (persist_upload_cases upload w)
    as [[Hbig _]|[[Hempty _]|[_ Hrun]]]; [lia|lia|].
  destruct Hrun as [(Hnone & _)|(exc' & e & w' & Hcopy' & Hrun & Hdb & Hrem)];
    [congruence|].
  rewrite Hcopy in Hcopy'. injection Hcopy' as <-.
  destruct (Hrem Hexc Hfree) as [-> Hgone]. by exists w'.
Qed.


(** An upload that [upload_report] accepts, and what accepting it has
    done *)
Lemma upload_report_accepted (container : AppContainer) (file : UploadFile)
    (w w0 : World) response document generated_id :
  upload_report container file w
  = (Ok (response, (document, generated_id)), w0) →
  let temp_path := w_tmp_names w (w_tmp_made w) in
  (∃ file_name, filename file = Some file_name ∧
     endswith (lower file_name) ".xlsx" = true) ∧
  (∃ type, content_type file = Some type ∧ type ∈ ALLOWED_CONTENT_TYPES) ∧
  (0 < upload_size file ≤ MAX_UPLOAD_SIZE_BYTES)%nat ∧
  copy_error file = None ∧
  structured_output (report_file_reader container) temp_path
  = Ok (upload_structured_output response) ∧
  read (report_file_reader container) temp_path = Ok document ∧
  upload_report_id response = w_uuids w (w_uuid_draws w) ∧
  generated_id = w_uuids w (w_uuid_draws w) ∧
  w_db w0 = w_db w ∧
  w_files w0 = {[temp_path]} ∪ w_files w ∧
  w_locked w0 = w_locked w ∧
  w_uuids w0 = w_uuids w ∧ w_uuid_draws w0 = S (w_uuid_draws w).
Proof.
  intros Hupload temp_path. revert Hupload. unfold upload_report.
  destruct (truthy (filename file)) eqn:Hname; simpl; [|discriminate].
  destruct (filename file) as [file_name|]; [|discriminate]. simpl.
  destruct (endswith (lower file_name) ".xlsx") eqn:Hext; simpl;
    [|discriminate].
  destruct (bool_decide _) eqn:Htype; simpl; [|discriminate].
  apply bool_decide_eq_true in Htype.
  change (content_type file ∈ Some <$> ALLOWED_CONTENT_TYPES) in Htype.
  apply list_elem_of_fmap in Htype as (type & Htype & Hallowed).
  unfold bind at 1.
  destruct (persist_upload_cases file w)
    as [[_ ->]|[[_ ->]|[Hfits [(Hcopy & w1 & -> & Hdb & Hfiles & Hlocked
                                   & Huuids & Hdraws)
                           |(exc & e & w1 & _ & -> & _)]]]];
    [discriminate|discriminate| |discriminate].
  fold temp_path in Hfiles |- *.
  run_M.
  destruct (structured_output (report_file_reader container) temp_path)
    as [rows|e1]; simpl.
  - destruct (read (report_file_reader container) temp_path)
      as [file_data|e2]; simpl.
    + intros [= <- <- <- <-]. simpl.
      rewrite Hdb, Hfiles, Hlocked, Huuids, Hdraws.
      repeat (split; [by eauto|]). done.
    + by destruct (is_Exception (exc_class e2)).
  - by destruct (is_Exception (exc_class e1)).
Qed.

(** X19. [upload_report] accepts an upload only if its file name ends
    in [.xlsx] up to case, its content type is one of the two allowed
    ones, its size is between one byte and 2 MiB, and the reader has
    returned both the preview and the document for the temporary file;
    the id in the response is the id of the scheduled task. *)
Theorem upload_report_accepts_only (container : AppContainer)
    (file : UploadFile) (w w0 : World) response document generated_id :
  upload_report container file w
  = (Ok (response, (document, generated_id)), w0) →
  (∃ file_name, filename file = Some file_name ∧
     endswith (lower file_name) ".xlsx" = true) ∧
  (∃ type, content_type file = Some type ∧ type ∈ ALLOWED_CONTENT_TYPES) ∧
  (0 < upload_size file ≤ MAX_UPLOAD_SIZE_BYTES)%nat ∧
  structured_output (report_file_reader container)
    (w_tmp_names w (w_tmp_made w))
  = Ok (upload_structured_output response) ∧
  read (report_file_reader container) (w_tmp_names w (w_tmp_made w))
  = Ok document ∧
  upload_report_id response = generated_id.
Proof.
  intros Hupload.
  destruct (upload_report_accepted _ _ _ _ _ _ _ Hupload)
    as (Hname & Htype & Hsize & _ & Hrows & Hread & Hid & -> & _).
  by repeat (split; [done|]).
Qed.

(** X20. Accepting an upload stores nothing: until the background task
    has run, [get_processed_report] answers 404 for the id of the
    response, provided that id was not stored before. *)
Theorem upload_report_stores_nothing (container : AppContainer)
    (file : UploadFile) (w w0 : World) response document generated_id :
  upload_report container file w
  = (Ok (response, (document, generated_id)), w0) →
  uuid_str (upload_report_id response) ∉ dom (w_db w) →
  w_db w0 = w_db w ∧
  get_processed_report (upload_report_id response) w0
  = (Raise (HTTPException 404 "Report not found"), w0).
Proof.
  intros Hupload Hfresh.
  destruct (upload_report_accepted _ _ _ _ _ _ _ Hupload)
    as (_ & _ & _ & _ & _ & _ & _ & _ & Hdb & _).
  split; [done|]. apply get_processed_report_missing.
  rewrite Hdb. unfold get_db.
  apply not_elem_of_dom in Hfresh. by rewrite Hfresh.
Qed.

(** X21. When the reader raises an exception for the temporary file,
    [upload_report] answers 422, stores nothing and draws no id; the
    temporary file is left in place. *)
Theorem upload_report_unreadable (container : AppContainer)
    (file : UploadFile) (w : World) file_name type exc :
  filename file = Some file_name →
  endswith (lower file_name) ".xlsx" = true →
  content_type file = Some type → type ∈ ALLOWED_CONTENT_TYPES →
  (0 < upload_size file ≤ MAX_UPLOAD_SIZE_BYTES)%nat →
  copy_error file = None →
  is_Exception (exc_class exc) = true →
  structured_output (report_file_reader container)
    (w_tmp_names w (w_tmp_made w)) = Raise exc ∨
  ((∃ rows, structured_output (report_file_reader container)
              (w_tmp_names w (w_tmp_made w)) = Ok rows) ∧
   read (report_file_reader container) (w_tmp_names w (w_tmp_made w))
   = Raise exc) →
  ∃ w', upload_report container file w
        = (Raise (HTTPException 422 "Unable to parse the uploaded Excel file"),
           w') ∧
    w_db w' = w_db w ∧ w_uuid_draws w' = w_uuid_draws w ∧
    w_files w' = {[w_tmp_names w (w_tmp_made w)]} ∪ w_files w.
Proof.
  intros Hname Hext Htype Hallowed Hsize Hcopy Hexc Hreader.
  unfold upload_report. rewrite Hname, Htype. simpl.
  assert (Hnonempty : negb (file_name =? "")%string = true).
  { destruct (String.eqb_spec file_name "") as [->|]; [|done].
    by vm_compute in Hext. }
  rewrite Hnonempty, Hext. simpl.
  assert (Hmember : Some type ∈ Some <$> ALLOWED_CONTENT_TYPES)
    by (by apply list_elem_of_fmap_2).
  simpl in Hmember. rewrite (bool_decide_eq_true_2 _ Hmember). simpl.
  unfold bind at 1.
  destruct (persist_upload_cases file w)
    as [[? _]|[[? _]|[_ [(_ & w1 & -> & Hdb & Hfiles & _ & _ & Hdraws)
                        |(exc' & _ & _ & ? & _)]]]];
    [lia|lia| |congruence].
  run_M.
  destruct Hreader as [->|[[rows ->] ->]]; simpl; rewrite Hexc; simpl;
    eexists; (split; [done|]); simpl; by rewrite Hdb, Hdraws, Hfiles.
Qed.


(** ** Requests from start to end *)

Lemma process_in_background_uuids (builder : ReportDataBuilder)
    (document : ReportFileData) (generated_id : UUID) (w : World) :
  let w' := (process_in_background builder document generated_id w).2 in
  w_uuids w' = w_uuids w ∧ (w_uuid_draws w ≤ w_uuid_draws w')%nat.
Proof.
  pose proof (process_frame (build_processor builder) document w) as Hframe.
  remember (process_in_background builder document generated_id w)
    as outcome eqn:Hrun.
  symmetry in Hrun. revert Hrun.
  unfold process_in_background, builder_process, bind at 1.
  destruct (process (build_processor builder) document w)
    as [[[processed|exc]|e] w1]; simpl in Hframe;
    destruct Hframe as (_ & _ & _ & Huuids & Hdraws & _).
  - run_M.
    match goal with |- context [remove_temp_file ?p ?w2] =>
      destruct (remove_temp_file_frame p w2)
        as (w' & -> & _ & _ & Huuids' & Hdraws' & _)
    end.
    intros <-. simpl in *. by rewrite Huuids', Hdraws'.
  - destruct (is_Exception (exc_class exc)); run_M;
      [|by intros <-].
    match goal with |- context [remove_temp_file ?p ?w2] =>
      destruct (remove_temp_file_frame p w2)
        as (w' & -> & _ & _ & Huuids' & Hdraws' & _)
    end.
    intros <-. simpl in *. by rewrite Huuids', Hdraws'.
  - by intros <-.
Qed.

Lemma post_reports_accepted (container : AppContainer) (file : UploadFile)
    (w w' : World) response :
  post_reports container file w = (Ok response, w') →
  ∃ document w0,
    upload_report container file w
    = (Ok (response, (document, upload_report_id response)), w0) ∧
    w' = (process_in_background (report_data_builder container) document
            (upload_report_id response) w0).2.
Proof.
  unfold post_reports.
  destruct (upload_report container file w)
    as [[[response' [document generated_id]]|e] w0] eqn:Hupload;
    [|discriminate].
  intros [= -> <-].
  pose proof (upload_report_task_id _ _ _ _ _ _ _ Hupload) as ->.
  by exists document, w0.
Qed.

(** X22. Two accepted uploads in a row are answered with different
    ids, as long as the generator does not give the id of the first
    again, and the second request leaves what is stored for the first
    as it is. *)
Theorem successive_uploads_do_not_collide (container : AppContainer)
    (file1 file2 : UploadFile) (w w1 w2 : World) response1 response2 :
  post_reports container file1 w = (Ok response1, w1) →
  post_reports container file2 w1 = (Ok response2, w2) →
  (∀ later, (w_uuid_draws w < later)%nat →
     w_uuids w later ≠ w_uuids w (w_uuid_draws w)) →
  upload_report_id response1 ≠ upload_report_id response2 ∧
  get_db (upload_report_id response1) (w_db w2)
  = get_db (upload_report_id response1) (w_db w1).
Proof.
  intros Hpost1 Hpost2 Hfresh.
  destruct (post_reports_accepted _ _ _ _ _ Hpost1)
    as (document1 & w0 & Hupload1 & Hw1).
  destruct (post_reports_accepted _ _ _ _ _ Hpost2)
    as (document2 & w0' & Hupload2 & Hw2).
  destruct (upload_report_accepted _ _ _ _ _ _ _ Hupload1)
    as (_ & _ & _ & _ & _ & _ & Hid1 & _ & _ & _ & _ & Huuids0 & Hdraws0).
  destruct (upload_report_accepted _ _ _ _ _ _ _ Hupload2)
    as (_ & _ & _ & _ & _ & _ & Hid2 & _ & Hdb0' & _).
  destruct (process_in_background_uuids (report_data_builder container)
              document1 (upload_report_id response1) w0) as [Huuids1 Hdraws1].
  rewrite <- Hw1 in Huuids1, Hdraws1.
  assert (Hne : upload_report_id response1 ≠ upload_report_id response2).
  { rewrite Hid1, Hid2, Huuids1, Huuids0. intros Heq.
    apply (Hfresh (w_uuid_draws w1)); [lia|done]. }
  split; [done|]. subst w2.
  destruct (process_in_background_outcomes (report_data_builder container)
              document2 (upload_report_id response2) w0')
    as [(e & w' & -> & Hdb & _)|(r & w' & -> & Hid & Hdb & _)]; simpl;
    rewrite Hdb, ?Hdb0'; [done|].
  apply get_db_save_db_ne. by rewrite Hid.
Qed.

(** X23. [get_processed_report] has three answers and never changes
    the database: 404 when nothing is stored under the id; 500 with one
    fixed text, after logging the id and the stored error, when the
    stored error is a non-empty string; otherwise the payload with the
    requested id, the stored metrics and the printed [processed_at]. *)
Theorem get_processed_report_answers (report_id' : UUID) (w : World) :
  (get_db report_id' (w_db w) = Ok None ∧
   get_processed_report report_id' w
   = (Raise (HTTPException 404 "Report not found"), w)) ∨
  (∃ found message w',
     get_db report_id' (w_db w) = Ok (Some found) ∧
     error found = Some message ∧ message ≠ "" ∧
     get_processed_report report_id' w
     = (Raise (HTTPException 500
                 "Report processing failed. Please try again later."), w') ∧
     w_db w' = w_db w ∧
     w_log w'
     = (w_log w ++
        [(ERROR,
          "Processed report %s is unavailable due to an internal error: %s",
          [uuid_str report_id'; message])])%list) ∨
  (∃ found,
     get_db report_id' (w_db w) = Ok (Some found) ∧
     (error found = None ∨ error found = Some "") ∧
     get_processed_report report_id' w
     = (Ok (mkProcessedReportResponse report_id'
              (isoformat (processed_at found)) (data found)), w)).
Proof.
  destruct (get_returns_requested_id_cases report_id' (w_db w))
    as [[Hget _]|(found & Hget & Hid & _)].
  - left. split; [done|]. by apply get_processed_report_missing.
  - right. unfold get_processed_report. run_M. rewrite Hget. simpl.
    destruct (error found) as [message|] eqn:Herr; simpl.
    + destruct (String.eqb_spec message "") as [->|Hne]; simpl.
      * right. exists found. rewrite Herr, Hid. by eauto.
      * left. exists found, message. by eauto 10.
    + right. exists found. rewrite Herr, Hid. by eauto.
Qed.


(** X24. An accepted upload whose extractor answers is retrieved, once
    the background task has run, as the payload with the id of the
    upload response, the metrics normalized against the four default
    metrics, whatever the container is configured with, and the clock
    reading taken by the processor, printed as the naive [datetime]
    that the store gives back. *)
Theorem upload_then_retrieve (container : AppContainer) (file : UploadFile)
    (w w0 : World) response document generated_id prompt extraction :
  let processor := build_processor (report_data_builder container) in
  upload_report container file w
  = (Ok (response, (document, generated_id)), w0) →
  format_prompt (_prompt_template processor) (metadata document)
    (content document) (metrics_config processor) = Ok prompt →
  llm container prompt = Answers extraction →
  ∃ w',
    post_reports container file w = (Ok response, w') ∧
    get_processed_report (upload_report_id response) w'
    = (Ok (mkProcessedReportResponse (upload_report_id response)
             (isoformat (naive (w_clock w0 (w_clock_reads w0))))
             (_build_metrics_from_extraction DEFAULT_METRICS_MODEL
                extraction)), w').
Proof.
  intros processor Hupload Hfmt Hllm.
  pose proof (upload_report_task_id _ _ _ _ _ _ _ Hupload) as ->.
  destruct (process_in_background_answers (report_data_builder container)
              document (upload_report_id response) w0 prompt extraction
              Hfmt Hllm) as (w' & Hrun & Hdb).
  exists w'. split; [unfold post_reports; by rewrite Hupload, Hrun|].
  rewrite (proj1 (container_processor container)) in Hdb.
  assert (Hget : get_db (upload_report_id response) (w_db w')
                 = Ok (Some (mkProcessedData (upload_report_id response)
                               (_build_metrics_from_extraction
                                  DEFAULT_METRICS_MODEL extraction)
                               (naive (w_clock w0 (w_clock_reads w0)))
                               None))).
  { rewrite Hdb.
    by rewrite (get_db_save_db
                  (mkProcessedData (upload_report_id response) _ _ None)). }
  by rewrite (get_processed_report_payload _ _ _ Hget).
Qed.

(** X25. An accepted upload whose extractor raises an exception with a
    non-empty text is retrieved, once the background task has run, as
    the 500 answer with its fixed text: the answer is the same for
    every such exception. *)
Theorem upload_then_retrieve_failure (container : AppContainer)
    (file : UploadFile) (w w0 : World) response document generated_id
    prompt exc :
  let processor := build_processor (report_data_builder container) in
  upload_report container file w
  = (Ok (response, (document, generated_id)), w0) →
  format_prompt (_prompt_template processor) (metadata document)
    (content document) (metrics_config processor) = Ok prompt →
  llm container prompt = Fails exc →
  is_Exception (exc_class exc) = true →
  exc_str exc ≠ "" →
  ∃ w' w'',
    post_reports container file w = (Ok response, w') ∧
    get_processed_report (upload_report_id response) w'
    = (Raise (HTTPException 500
                "Report processing failed. Please try again later."), w'') ∧
    w_db w'' = w_db w'.
Proof.
  intros processor Hupload Hfmt Hllm Hexc Htext.
  pose proof (upload_report_task_id _ _ _ _ _ _ _ Hupload) as ->.
  destruct (process_in_background_fails (report_data_builder container)
              document (upload_report_id response) w0 prompt exc
              Hfmt Hllm Hexc) as (w' & Hrun & Hdb).
  assert (Hget : get_db (upload_report_id response) (w_db w')
                 = Ok (Some (mkProcessedData (upload_report_id response) ∅
                               (naive (w_clock w0 (w_clock_reads w0)))
                               (Some (exc_str exc))))).
  { rewrite Hdb.
    by rewrite (get_db_save_db
                  (mkProcessedData (upload_report_id response) ∅ _ _)). }
  assert (Htruthy : truthy (Some (exc_str exc)) = true).
  { simpl. by destruct (String.eqb_spec (exc_str exc) ""). }
  destruct (get_processed_report_failed _ _ _ Hget Htruthy)
    as (w'' & Hanswer & Hdb'').
  exists w', w''. split; [unfold post_reports; by rewrite Hupload, Hrun|].
  by split.
Qed.

(** ** The router *)

(** X26. A request whose [X-API-Key] header is missing or empty is
    refused by the security scheme with "Not authenticated"; a request
    whose header is not empty and differs from the configured key is
    answered 401 "Invalid API key".  Either way the handler of the
    route does not run and the world stays as it was.  When no key is
    configured, every request is refused. *)
Theorem reports_router_refuses (container : AppContainer)
    (api_key : option string) (not_authenticated : nat)
    (header : option string) (request : Request) (w : World) :
  (truthy header = false →
   reports_router container api_key not_authenticated header request w
   = (Raise (HTTPException not_authenticated "Not authenticated"), w)) ∧
  (∀ api_key_header,
     header = Some api_key_header → api_key_header ≠ "" →
     api_key ≠ Some api_key_header →
     reports_router container api_key not_authenticated header request w
     = (Raise (HTTPException 401 "Invalid API key"), w)) ∧
  (api_key = None →
   ∃ status detail,
     reports_router container api_key not_authenticated header request w
     = (Raise (HTTPException status detail), w)).
Proof.
  assert (Hdiffers : ∀ api_key_header,
            header = Some api_key_header → api_key_header ≠ "" →
            api_key ≠ Some api_key_header →
            reports_router container api_key not_authenticated header request w
            = (Raise (HTTPException 401 "Invalid API key"), w)).
  { intros api_key_header -> Hfull Hkey.
    unfold reports_router, APIKeyHeader, enforce_api_key, bind at 1. simpl.
    destruct (String.eqb_spec api_key_header "") as [|_]; [done|]. simpl.
    unfold bind at 1. by rewrite decide_True by congruence. }
  assert (Hmissing : truthy header = false →
            reports_router container api_key not_authenticated header request w
            = (Raise (HTTPException not_authenticated "Not authenticated"), w)).
  { intros Hempty. unfold reports_router, APIKeyHeader, bind at 1.
    by rewrite Hempty. }
  split; [done|]. split; [done|]. intros ->.
  destruct (truthy header) eqn:Htruthy.
  - destruct header as [api_key_header|]; [|discriminate].
    exists 401%nat, "Invalid API key". apply (Hdiffers api_key_header); try done.
    intros ->. discriminate.
  - exists not_authenticated, "Not authenticated". by apply Hmissing.
Qed.

(** With the configured key in the header the router answers as the
    handler of the route does. *)
Lemma reports_router_admits (container : AppContainer)
    (not_authenticated : nat) (api_key_header : string) (request : Request)
    (w : World) :
  api_key_header ≠ "" →
  reports_router container (Some api_key_header) not_authenticated
    (Some api_key_header) request w
  = match request with
    | POST_reports file =>
        match post_reports container file w with
        | (Ok body, w') => (Ok (Accepted body), w')
        | (Raise e, w') => (Raise e, w')
        end
    | GET_report report_id =>
        match get_processed_report report_id w with
        | (Ok body, w') => (Ok (Processed body), w')
        | (Raise e, w') => (Raise e, w')
        end
    end.
Proof.
  intros Hfull.
  unfold reports_router, APIKeyHeader, enforce_api_key, bind at 1. simpl.
  destruct (String.eqb_spec api_key_header "") as [|_]; [done|]. simpl.
  unfold bind at 1. rewrite decide_False by (by intros []).
  destruct request; by unfold bind, ret; simpl.
Qed.

(** ** The reader *)

Lemma foldl_update_lookup (docs : list Document)
    (metadata : gmap string string) key :
  foldl (λ metadata doc, doc_metadata doc ∪ metadata) metadata docs !! key
  = match last (filter (λ doc, is_Some (doc_metadata doc !! key)) docs) with
    | Some doc => doc_metadata doc !! key
    | None => metadata !! key
    end.
Proof.
  revert metadata. induction docs as [|doc docs IH]; intros metadata; simpl;
    [done|].
  rewrite IH, filter_cons.
  destruct (decide (is_Some (doc_metadata doc !! key))) as [[v Hv]|Hnone].
  - rewrite last_cons. destruct (last _); [done|].
    rewrite Hv. by apply lookup_union_Some_l.
  - destruct (last _); [done|].
    apply lookup_union_r. by apply eq_None_not_Some.
Qed.

(** X27. [XlsxFileReader.read] raises [ValueError] exactly when the
    loader returns no document, and passes on what the loader raises;
    otherwise the content is the page contents joined by blank lines
    and each metadata key has the value of the last document that
    carries it. *)
Theorem xlsx_read_merges_documents
    (aload : string → Result PyExc (list Document)) (file_path : string) :
  match aload file_path with
  | Raise e => XlsxFileReader_read aload file_path = Raise e
  | Ok [] =>
      XlsxFileReader_read aload file_path
      = Raise (mkPyExc ValueErrorClass "No content found in the Excel file.")
  | Ok docs =>
      ∃ file_data,
        XlsxFileReader_read aload file_path = Ok file_data ∧
        content file_data = String.concat blank_line (page_content <$> docs) ∧
        ∀ key,
          metadata file_data !! key
          = match last (filter (λ doc, is_Some (doc_metadata doc !! key))
                          docs) with
            | Some doc => doc_metadata doc !! key
            | None => None
            end
  end.
Proof.
  unfold XlsxFileReader_read.
  destruct (aload file_path) as [[|doc docs]|e]; [done| |done].
  eexists. split; [done|]. split; [done|]. intros key.
  cbn [metadata]. by rewrite (foldl_update_lookup (doc :: docs)).
Qed.

(** ** The wiring of the container *)

(** X28. The processor that the container builds always works on the
    four default metrics and on the default prompt template, and calls
    the container's LLM: what is configured for the metrics and for
    the prompt template does not reach it.  A [ReportDataBuilder] made
    with a metrics mapping of its own hands that mapping to its
    processors as a whole, also when it is empty. *)
Theorem container_configuration (container : AppContainer) :
  let processor := build_processor (report_data_builder container) in
  metrics_config processor = DEFAULT_METRICS_MODEL ∧
  _prompt_template processor = DEFAULT_PROMPT_TEMPLATE ∧
  _structured_llm processor = llm container ∧
  ∀ metrics llm' prompt_template,
    metrics_config
      (build_processor
         (ReportDataBuilder_init (Some metrics)
            (λ metrics_config,
               ReportDataProcessor_init llm' metrics_config prompt_template)))
    = metrics.
Proof.
  intros processor. split; [|split; [|split]].
  - unfold processor. by rewrite (proj1 (container_processor container)).
  - done.
  - done.
  - intros metrics llm' prompt_template. apply list_to_map_to_list.
Qed.

End Pipeline.

(** * Examples *)

(** A proposal for an unknown name is dropped. *)
Example normalize_drops_unknown_name :
  _build_metrics_from_extraction
    {["cash" := mkMetricConfig [] MetadataKeysNone]}
    (mkExtractionResult None
       [mkExtractedMetric "cash" (Some "100") (Some "90");
        mkExtractedMetric "unused" (Some "1") None])
  = {["cash" := mkMetricValues (Some "100") (Some "90")]}.
Proof. vm_compute. reflexivity. Qed.

(** Without proposals every metric of the schema has two absent values. *)
Example normalize_without_proposals :
  _build_metrics_from_extraction sample_schema (mkExtractionResult None [])
  = <["cash" := MetricValues_default]> {["debt" := MetricValues_default]}.
Proof. vm_compute. reflexivity. Qed.

(** The default schema names the four balance-sheet items. *)
Example default_schema_keys :
  dom DEFAULT_METRICS_MODEL
  = {["non_current_assets"; "current_assets"; "prepaid_expenses";
      "deferred_tax_assets"]}.
Proof.
  unfold DEFAULT_METRICS_MODEL. rewrite !dom_insert_L, dom_empty_L.
  by rewrite (right_id_L ∅ (∪)), !(assoc_L (∪)).
Qed.

(** C8. The stored report has the empty string as its error, which is
    not an absent error, and [get_processed_report] answers with the
    payload instead of the failure response. *)
Example get_processed_report_empty_error (isoformat : datetime → string) :
  get sample_id world_with_empty_error
  = (Ok (Some (mkProcessedData sample_id ∅ 1700000000%Z (Some ""))),
     world_with_empty_error) ∧
  get_processed_report isoformat sample_id world_with_empty_error
  = (Ok (mkProcessedReportResponse sample_id (isoformat 1700000000%Z) ∅),
     world_with_empty_error).
Proof.
  assert (Hget : get_db sample_id (w_db world_with_empty_error)
                 = Ok (Some (mkProcessedData sample_id ∅ 1700000000%Z (Some ""))))
    by apply (get_db_save_db
                (mkProcessedData sample_id ∅ (utc 1700000000) (Some ""))).
  split.
  - unfold get. by rewrite Hget.
  - by rewrite (get_processed_report_payload isoformat _ _ _ Hget).
Qed.

(** The last ["cash"] proposal gives both fields, its absent
    [previous] included; the ["unused"] proposal leaves no entry. *)
Lemma build_metrics_last_wins_and_discards_witness :
  _build_metrics_from_extraction sample_schema sample_extraction !! "cash"
  = Some (mkMetricValues (Some "100") None) ∧
  _build_metrics_from_extraction sample_schema sample_extraction !! "unused"
  = None.
Proof.
  destruct (build_metrics_last_wins_and_discards sample_schema
              sample_extraction) as (Hkept & Hdropped & _).
  split.
  - destruct (Hkept (mkExtractedMetric "cash" (Some "80") (Some "70")))
      as (kept & Hlast & _ & Hlookup).
    + apply list_elem_of_here.
    + apply (bool_decide_unpack _). by vm_compute.
    + vm_compute in Hlast. injection Hlast as <-. exact Hlookup.
  - apply (Hdropped (mkExtractedMetric "unused" (Some "1") None)).
    + apply list_elem_of_further, list_elem_of_here.
    + apply (bool_decide_unpack _). by vm_compute.
Defined.




Lemma get_error_metrics_exclusive_witness :
  get_db sample_id
    (foldl (λ db r, save_db r db) ∅ [sample_report; failed_with_metrics])
  = Ok (Some (mkProcessedData sample_id ∅ 1700000009%Z (Some "LLM failure"))) ∧
  (error (mkProcessedData sample_id ∅ 1700000009%Z (Some "LLM failure")) = None ∨
   data (mkProcessedData sample_id ∅ 1700000009%Z (Some "LLM failure")) = ∅).
Proof.
  assert (Hget : get_db sample_id
                   (foldl (λ db r, save_db r db) ∅
                      [sample_report; failed_with_metrics])
                 = Ok (Some (mkProcessedData sample_id ∅ 1700000009%Z
                               (Some "LLM failure"))))
    by apply (get_db_save_db failed_with_metrics).
  split; [exact Hget|].
  exact (get_error_metrics_exclusive _ _ _ Hget).
Defined.

(** C6 as stated fails: a second report that carries an error and
    metrics comes back with an empty metrics mapping, and the
    [processed_at] of a second report comes back without its time
    zone. *)
Lemma save_overwrites_previous_counterexample :
  report_id sample_report = report_id failed_with_metrics ∧
  data sample_report ≠ data failed_with_metrics ∧
  get_db sample_id (save_db failed_with_metrics (save_db sample_report ∅))
  = Ok (Some (mkProcessedData sample_id ∅ 1700000009%Z (Some "LLM failure"))) ∧
  (∅ : gmap string MetricValues) ≠ data failed_with_metrics ∧
  report_id sample_report = report_id later_report ∧
  data sample_report ≠ data later_report ∧
  get_db sample_id (save_db later_report (save_db sample_report ∅))
  = Ok (Some (mkProcessedData sample_id
                {["debt" := mkMetricValues None (Some "7")]}
                1700000005%Z None)) ∧
  naive 1700000005 ≠ processed_at later_report.
Proof.
  split; [done|]. split; [|split; [|split; [|split; [|split; [|split]]]]].
  - intros Heq. apply (f_equal (λ m, m !! "cash")) in Heq.
    by vm_compute in Heq.
  - apply (get_db_save_db failed_with_metrics).
  - intros Heq. apply (f_equal (λ m, m !! "debt")) in Heq.
    by vm_compute in Heq.
  - done.
  - intros Heq. apply (f_equal (λ m, m !! "cash")) in Heq.
    by vm_compute in Heq.
  - apply (get_db_save_db later_report).
  - discriminate.
Qed.

Lemma save_overwrites_previous_witness :
  ((∃ found,
      get_db (report_id later_report)
        (save_db later_report (save_db sample_report ∅)) = Ok (Some found) ∧
      report_id found = report_id later_report ∧
      data found = data later_report ∧
      error found = error later_report ∧
      wall_clock (processed_at found) = wall_clock (processed_at later_report) ∧
      (tzinfo (processed_at later_report) = None → found = later_report)) ∧
   (rec_metrics <$> save_db later_report (save_db sample_report ∅)
                      !! uuid_str (report_id later_report))
   = Some [mkReportMetricRecord "debt" None (Some "7")] ∧
   save_db later_report (save_db sample_report ∅) = save_db later_report ∅) ∧
  get_db (report_id naive_report)
    (save_db naive_report (save_db other_report ∅))
  = Ok (Some naive_report).
Proof.
  split.
  - exact (save_overwrites_previous ∅ sample_report later_report eq_refl
             (or_introl eq_refl)).
  - destruct (save_overwrites_previous ∅ other_report naive_report eq_refl
                (or_introl eq_refl))
      as [(found & Hget & _ & _ & _ & _ & Hnaive) _].
    rewrite Hget. by rewrite (Hnaive eq_refl).
Defined.

(** C7 as stated fails: a report with an error and metrics comes back
    from [get] without its metrics, and a report whose [processed_at]
    carries a time zone comes back without the time zone. *)
Lemma save_idempotent_roundtrip_counterexample :
  get_db (report_id failed_with_metrics)
    (save_db failed_with_metrics (save_db failed_with_metrics ∅))
  = Ok (Some (mkProcessedData sample_id ∅ 1700000009%Z (Some "LLM failure"))) ∧
  get_db (report_id failed_with_metrics)
    (save_db failed_with_metrics (save_db failed_with_metrics ∅))
  ≠ Ok (Some failed_with_metrics) ∧
  get_db (report_id sample_report)
    (save_db sample_report (save_db sample_report ∅))
  = Ok (Some (mkProcessedData sample_id
                {["cash" := mkMetricValues (Some "100") (Some "")]}
                1700000000%Z None)) ∧
  get_db (report_id sample_report)
    (save_db sample_report (save_db sample_report ∅))
  ≠ Ok (Some sample_report).
Proof.
  rewrite !save_db_twice, !get_db_save_db.
  split; [done|]. split; [|split; [done|]].
  - intros Heq.
    apply (f_equal (λ found, match found with
                             | Ok (Some r) => data r !! "debt"
                             | _ => None
                             end)) in Heq.
    by vm_compute in Heq.
  - intros Heq.
    apply (f_equal (λ found, match found with
                             | Ok (Some r) => tzinfo (processed_at r)
                             | _ => None
                             end)) in Heq.
    discriminate.
Qed.

Lemma save_idempotent_roundtrip_witness :
  (save_db sample_report (save_db sample_report ∅) = save_db sample_report ∅ ∧
   ∃ found,
     get_db (report_id sample_report)
       (save_db sample_report (save_db sample_report ∅)) = Ok (Some found) ∧
     get_db (report_id sample_report) (save_db sample_report ∅)
     = Ok (Some found) ∧
     report_id found = report_id sample_report ∧
     data found = data sample_report ∧
     error found = error sample_report ∧
     wall_clock (processed_at found) = wall_clock (processed_at sample_report) ∧
     (tzinfo (processed_at sample_report) = None → found = sample_report)) ∧
  get_db (report_id naive_report)
    (save_db naive_report (save_db naive_report ∅))
  = Ok (Some naive_report).
Proof.
  split.
  - exact (save_idempotent_roundtrip ∅ sample_report (or_introl eq_refl)).
  - destruct (save_idempotent_roundtrip ∅ naive_report (or_introl eq_refl))
      as (_ & found & Hget & _ & _ & _ & _ & _ & Hnaive).
    rewrite Hget. by rewrite (Hnaive eq_refl).
Defined.

Lemma empty_error_is_served_as_success_witness :
  ∃ w' now,
    process_in_background sample_format_prompt (failing_builder "")
      sample_document sample_id sample_world = (Ok tt, w') ∧
    get sample_id w'
    = (Ok (Some (mkProcessedData sample_id ∅ now (Some ""))), w') ∧
    get_processed_report sample_isoformat sample_id w'
    = (Ok (mkProcessedReportResponse sample_id (sample_isoformat now) ∅), w').
Proof.
  exact (proj2 (empty_error_is_served_as_success sample_format_prompt
                  sample_isoformat (failing_builder "") sample_document
                  sample_id sample_world sample_prompt
                  (mkPyExc ExceptionClass "") eq_refl eq_refl eq_refl eq_refl)).
Defined.

Lemma report_id_independent_of_extraction_witness :
  ∃ w1 w2 found1 found2,
    post_reports sample_format_prompt
      (sample_container (answering_llm sample_extraction)) sample_file
      sample_world = (Ok sample_response, w1) ∧
    post_reports sample_format_prompt
      (sample_container (answering_llm other_extraction)) sample_file
      sample_world = (Ok sample_response, w2) ∧
    get (upload_report_id sample_response) w1 = (Ok (Some found1), w1) ∧
    get (upload_report_id sample_response) w2 = (Ok (Some found2), w2) ∧
    report_id found1 = upload_report_id sample_response ∧
    report_id found2 = upload_report_id sample_response ∧
    dom (w_db w1) = dom (w_db w2) ∧
    (er_metrics sample_extraction = er_metrics other_extraction → w1 = w2).
Proof.
  apply (report_id_independent_of_extraction sample_format_prompt
           (answering_llm sample_extraction) (answering_llm other_extraction)
           None (Some sample_schema) sample_reader sample_file sample_world
           uploaded_world sample_response sample_document sample_id
           sample_prompt sample_extraction other_extraction);
    reflexivity.
Defined.

(** * Instances of the further properties *)

Lemma sample_ids_differ : sample_id ≠ other_id.
Proof.
  intros Heq. apply (f_equal uuid_int) in Heq. by vm_compute in Heq.
Qed.

Lemma sample_size_fits :
  (0 < upload_size sample_file ≤ MAX_UPLOAD_SIZE_BYTES)%nat.
Proof.
  change (0 < 16 ≤ MAX_UPLOAD_SIZE_BYTES)%nat.
  unfold MAX_UPLOAD_SIZE_BYTES. lia.
Qed.

Lemma build_metrics_unmatched_absent_witness :
  _build_metrics_from_extraction sample_schema sample_extraction !! "debt"
  = Some (mkMetricValues None None).
Proof.
  apply build_metrics_unmatched_absent.
  - apply (bool_decide_unpack _). by vm_compute.
  - intros metric Hin.
    repeat (apply elem_of_cons in Hin as [->|Hin]; [done|]).
    by apply elem_of_nil in Hin.
Defined.

Lemma build_metrics_order_irrelevant_witness :
  _build_metrics_from_extraction sample_schema
    (mkExtractionResult None
       [mkExtractedMetric "cash" (Some "100") (Some "90");
        mkExtractedMetric "debt" (Some "7") None])
  = _build_metrics_from_extraction sample_schema
      (mkExtractionResult None
         [mkExtractedMetric "debt" (Some "7") None;
          mkExtractedMetric "cash" (Some "100") (Some "90")]).
Proof.
  apply build_metrics_order_irrelevant.
  - apply Permutation_swap.
  - apply (bool_decide_unpack _). by vm_compute.
Defined.

Lemma build_metrics_later_batch_wins_witness :
  _build_metrics_from_extraction sample_schema
    (mkExtractionResult None
       ([mkExtractedMetric "cash" (Some "80") (Some "70")] ++
        [mkExtractedMetric "cash" (Some "100") None])) !! "cash"
  = Some (mkMetricValues (Some "100") None).
Proof.
  rewrite (build_metrics_later_batch_wins sample_schema None
             [mkExtractedMetric "cash" (Some "80") (Some "70")]
             [mkExtractedMetric "cash" (Some "100") None] "cash").
  - done.
  - apply (bool_decide_unpack _). by vm_compute.
Defined.

Lemma save_leaves_other_ids_witness :
  get_db other_id (save_db sample_report (save_db other_report ∅))
  = get_db other_id (save_db other_report ∅).
Proof.
  exact (save_leaves_other_ids sample_report other_id
           (save_db other_report ∅) sample_ids_differ).
Defined.

Lemma save_commutes_witness :
  save_db sample_report (save_db other_report ∅)
  = save_db other_report (save_db sample_report ∅).
Proof.
  exact (save_commutes sample_report other_report ∅ sample_ids_differ).
Defined.

Lemma save_replaces_witness :
  save_db failed_with_metrics (save_db sample_report ∅)
  = save_db failed_with_metrics ∅.
Proof.
  exact (save_replaces sample_report failed_with_metrics ∅ eq_refl).
Defined.

Lemma save_error_drops_metrics_witness :
  get_db (report_id failed_with_metrics)
    (save_db failed_with_metrics (save_db sample_report ∅))
  = Ok (Some (mkProcessedData sample_id ∅ 1700000009%Z (Some "LLM failure"))).
Proof.
  exact (save_error_drops_metrics failed_with_metrics
           (save_db sample_report ∅) "LLM failure" eq_refl).
Defined.

Lemma process_raises_only_witness :
  sample_world = sample_world ∧
  (sample_format_prompt
     (_prompt_template (build_processor
                          (report_data_builder (sample_container cancelled_llm))))
     (metadata sample_document) (content sample_document)
     (metrics_config (build_processor
                        (report_data_builder (sample_container cancelled_llm))))
   = Raise (mkPyExc BaseExceptionOnly "cancelled") ∨
   ∃ prompt,
     sample_format_prompt
       (_prompt_template (build_processor
                            (report_data_builder (sample_container cancelled_llm))))
       (metadata sample_document) (content sample_document)
       (metrics_config (build_processor
                          (report_data_builder (sample_container cancelled_llm))))
     = Ok prompt ∧
     _structured_llm (build_processor
                        (report_data_builder (sample_container cancelled_llm)))
       prompt
     = Fails (mkPyExc BaseExceptionOnly "cancelled") ∧
     is_Exception (exc_class (mkPyExc BaseExceptionOnly "cancelled")) = false).
Proof.
  exact (process_raises_only sample_format_prompt
           (build_processor
              (report_data_builder (sample_container cancelled_llm)))
           sample_document sample_world sample_world
           (mkPyExc BaseExceptionOnly "cancelled") eq_refl).
Defined.

Lemma process_in_background_leaves_other_ids_witness :
  get_db other_id
    (w_db (process_in_background sample_format_prompt
             (failing_builder "LLM timeout") sample_document sample_id
             sample_world).2)
  = get_db other_id (w_db sample_world).
Proof.
  apply process_in_background_leaves_other_ids.
  intros Heq. by apply sample_ids_differ.
Defined.

Lemma process_in_background_aborts_witness :
  process_in_background sample_format_prompt
    (report_data_builder (sample_container cancelled_llm)) sample_document
    sample_id sample_world
  = (Raise (mkPyExc BaseExceptionOnly "cancelled"), sample_world).
Proof.
  exact (process_in_background_aborts sample_format_prompt
           (report_data_builder (sample_container cancelled_llm))
           sample_document sample_id sample_world sample_world
           (mkPyExc BaseExceptionOnly "cancelled") eq_refl).
Defined.


Lemma persist_upload_size_bounds_witness :
  ∃ w', _persist_upload sample_file sample_world
        = (Ok (w_tmp_names sample_world (w_tmp_made sample_world)), w') ∧
    w_files w'
    = {[w_tmp_names sample_world (w_tmp_made sample_world)]}
      ∪ w_files sample_world.
Proof.
  exact (proj2 (proj2 (persist_upload_size_bounds sample_file sample_world))
           sample_size_fits eq_refl).
Defined.

Lemma persist_upload_copy_failure_witness :
  ∃ w', _persist_upload broken_file sample_world
        = (Raise (Unhandled (mkPyExc OSErrorClass "No space left on device")),
           w') ∧
    (w_tmp_names sample_world (w_tmp_made sample_world) ∉ w_files w') ∧
    w_db w' = w_db sample_world.
Proof.
  apply persist_upload_copy_failure.
  - exact sample_size_fits.
  - reflexivity.
  - reflexivity.
  - apply not_elem_of_empty.
Defined.

Lemma upload_report_accepts_only_witness :
  (∃ file_name, filename sample_file = Some file_name ∧
     endswith (lower file_name) ".xlsx" = true) ∧
  (∃ type, content_type sample_file = Some type ∧
     type ∈ ALLOWED_CONTENT_TYPES) ∧
  (0 < upload_size sample_file ≤ MAX_UPLOAD_SIZE_BYTES)%nat ∧
  structured_output sample_reader
    (w_tmp_names sample_world (w_tmp_made sample_world))
  = Ok (upload_structured_output sample_response) ∧
  read sample_reader (w_tmp_names sample_world (w_tmp_made sample_world))
  = Ok sample_document ∧
  upload_report_id sample_response = sample_id.
Proof.
  apply (upload_report_accepts_only
           (sample_container (answering_llm sample_extraction)) sample_file
           sample_world uploaded_world sample_response sample_document
           sample_id).
  reflexivity.
Defined.

Lemma upload_report_stores_nothing_witness :
  w_db uploaded_world = w_db sample_world ∧
  get_processed_report sample_isoformat (upload_report_id sample_response)
    uploaded_world
  = (Raise (HTTPException 404 "Report not found"), uploaded_world).
Proof.
  apply (upload_report_stores_nothing sample_isoformat
           (sample_container (answering_llm sample_extraction)) sample_file
           sample_world uploaded_world sample_response sample_document
           sample_id).
  - reflexivity.
  - apply not_elem_of_empty.
Defined.

Lemma upload_report_unreadable_witness :
  ∃ w', upload_report unreadable_container sample_file sample_world
        = (Raise (HTTPException 422 "Unable to parse the uploaded Excel file"),
           w') ∧
    w_db w' = w_db sample_world ∧
    w_uuid_draws w' = w_uuid_draws sample_world ∧
    w_files w'
    = {[w_tmp_names sample_world (w_tmp_made sample_world)]}
      ∪ w_files sample_world.
Proof.
  apply (upload_report_unreadable unreadable_container sample_file
           sample_world "Report.XLSX" "application/octet-stream"
           (mkPyExc ValueErrorClass "File is not a zip file")).
  - reflexivity.
  - reflexivity.
  - reflexivity.
  - apply list_elem_of_further, list_elem_of_here.
  - exact sample_size_fits.
  - reflexivity.
  - reflexivity.
  - left. reflexivity.
Defined.

Lemma successive_uploads_do_not_collide_witness :
  upload_report_id sample_response
  ≠ upload_report_id (mkUploadReportResponse other_id [{["account" := "Cash"]}]) ∧
  get_db (upload_report_id sample_response) (w_db second_run_world)
  = get_db (upload_report_id sample_response) (w_db failed_run_world).
Proof.
  apply (successive_uploads_do_not_collide sample_format_prompt
           (sample_container (failing_llm "LLM timeout")) sample_file
           sample_file sample_world failed_run_world second_run_world).
  - reflexivity.
  - reflexivity.
  - intros [|later] Hlater; [simpl in Hlater; lia|].
    intros Heq. by apply sample_ids_differ.
Defined.

Lemma upload_then_retrieve_witness :
  ∃ w',
    post_reports sample_format_prompt
      (sample_container (answering_llm sample_extraction)) sample_file
      sample_world = (Ok sample_response, w') ∧
    get_processed_report sample_isoformat (upload_report_id sample_response) w'
    = (Ok (mkProcessedReportResponse sample_id "2023-11-14T22:13:20"
             (_build_metrics_from_extraction DEFAULT_METRICS_MODEL
                sample_extraction)), w').
Proof.
  exact (upload_then_retrieve sample_format_prompt sample_isoformat
           (sample_container (answering_llm sample_extraction)) sample_file
           sample_world uploaded_world sample_response sample_document
           sample_id sample_prompt sample_extraction eq_refl eq_refl eq_refl).
Defined.

Lemma upload_then_retrieve_failure_witness :
  ∃ w' w'',
    post_reports sample_format_prompt
      (sample_container (failing_llm "LLM timeout")) sample_file sample_world
    = (Ok sample_response, w') ∧
    get_processed_report sample_isoformat (upload_report_id sample_response) w'
    = (Raise (HTTPException 500
                "Report processing failed. Please try again later."), w'') ∧
    w_db w'' = w_db w'.
Proof.
  apply (upload_then_retrieve_failure sample_format_prompt sample_isoformat
           (sample_container (failing_llm "LLM timeout")) sample_file
           sample_world uploaded_world sample_response sample_document
           sample_id sample_prompt (mkPyExc ExceptionClass "LLM timeout"));
    [reflexivity..|done].
Defined.

Lemma reports_router_refuses_witness :
  reports_router sample_format_prompt sample_isoformat
    (sample_container (answering_llm sample_extraction)) (Some "secret") 403
    (Some "") (POST_reports sample_file) sample_world
  = (Raise (HTTPException 403 "Not authenticated"), sample_world) ∧
  reports_router sample_format_prompt sample_isoformat
    (sample_container (answering_llm sample_extraction)) None 403
    (Some "secret") (POST_reports sample_file) sample_world
  = (Raise (HTTPException 401 "Invalid API key"), sample_world).
Proof.
  split.
  - exact (proj1 (reports_router_refuses sample_format_prompt
                    sample_isoformat
                    (sample_container (answering_llm sample_extraction))
                    (Some "secret") 403 (Some "") (POST_reports sample_file)
                    sample_world) eq_refl).
  - apply (proj1 (proj2 (reports_router_refuses sample_format_prompt
                           sample_isoformat
                           (sample_container (answering_llm sample_extraction))
                           None 403 (Some "secret") (POST_reports sample_file)
                           sample_world)) "secret"); done.
Defined.
